(** * The reminder database of [assgn-1.ts]

    A shallow embedding of the class [ReminderDatabase] and of the
    library calls it makes (the insertion-ordered [Map], [Math.random],
    the JSON file written and read through [fs-extra], the day comparison
    of [moment]), followed by the properties of its operations. *)

From Stdlib Require Import ZArith List Lia Ascii.
From Stdlib Require Import SpecFloat.
From stdpp Require Import base option list strings gmap.

Local Open Scope Z_scope.

(** ** [interface Reminder] *)

Record Reminder := mkReminder {
  id : string;
  message : string;
  time : string;        (* Format: YYYY-MM-DD HH:mm *)
  completed : bool
}.

(** ** The built-in [Map<string, V>]

    A JavaScript [Map] iterates in insertion order, [set] on a key that is
    already there keeps the key's position, and [delete] frees it.  The
    entries are kept as a list, oldest first. *)

Module JsMap.
Section Ops.
Context {V : Type}.

Definition t := list (string * V).

Definition empty : t := [].

Fixpoint get (k : string) (m : t) : option V :=
  match m with
  | [] => None
  | (k', v) :: m' => if String.eqb k' k then Some v else get k m'
  end.

Definition has (k : string) (m : t) : bool :=
  match get k m with Some _ => true | None => false end.

Fixpoint set (k : string) (v : V) (m : t) : t :=
  match m with
  | [] => [(k, v)]
  | (k', v') :: m' =>
    if String.eqb k' k then (k', v) :: m' else (k', v') :: set k v m'
  end.

Fixpoint delete (k : string) (m : t) : t :=
  match m with
  | [] => []
  | (k', v') :: m' =>
    if String.eqb k' k then delete k m' else (k', v') :: delete k m'
  end.

Definition keys (m : t) : list string := map fst m.
Definition values (m : t) : list V := map snd m.
Definition entries (m : t) : list (string * V) := m.

(** [new Map(iterable)]: the entries are [set] one after the other. *)
Definition from_entries (l : list (string * V)) : t :=
  fold_left (fun m kv => set (fst kv) (snd kv) m) l empty.
End Ops.
Arguments t : clear implicits.
End JsMap.

(** ** JSON values and the file system

    [fs.writeJsonSync] and [fs.readJsonSync] are [JSON.stringify] and
    [JSON.parse] around a file write and a file read.  A file is described
    by what [JSON.parse] makes of its text: a JSON value, or a syntax
    error.  A write to a path the process may not write throws. *)

#[local] Unset Elimination Schemes.
Inductive json :=
  | JNull
  | JBool (b : bool)
  | JNumber (x : spec_float)
  | JString (s : string)
  | JArray (l : list json)
  | JObject (fields : list (string * json)).
#[local] Set Elimination Schemes.

Inductive FileContent :=
  | NotJson
  | Json (j : json).

Record FileSystem := mkFs {
  files : gmap string FileContent;
  denied : gset string
}.

Definition existsSync (path : string) (fs : FileSystem) : bool :=
  bool_decide (is_Some (files fs !! path)).

(** [None] stands for the exception. *)
Definition readJsonSync (path : string) (fs : FileSystem) : option json :=
  match files fs !! path with
  | Some (Json j) => Some j
  | _ => None
  end.

Definition writeJsonSync (path : string) (j : json) (fs : FileSystem)
  : option FileSystem :=
  if bool_decide (path ∈ denied fs) then None
  else Some {| files := <[path := Json j]> (files fs); denied := denied fs |}.

(** What [JSON.stringify] writes for a [Reminder] and for the array
    [Array.from(this.reminders.entries())]. *)
Definition json_of_Reminder (r : Reminder) : json :=
  JObject [("id", JString (id r)); ("message", JString (message r));
           ("time", JString (time r)); ("completed", JBool (completed r))].

Definition json_of_entry (kv : string * Reminder) : json :=
  JArray [JString (fst kv); json_of_Reminder (snd kv)].

Definition json_of_entries (l : list (string * Reminder)) : json :=
  JArray (map json_of_entry l).

(** Property access on a parsed object: the last of several equal keys
    is the one [JSON.parse] keeps. *)
Fixpoint json_field (k : string) (fields : list (string * json)) : option json :=
  match fields with
  | [] => None
  | (k', v) :: rest =>
      match json_field k rest with
      | Some w => Some w
      | None => if String.eqb k' k then Some v else None
      end
  end.

(** The three ways [new Map<string, Reminder>(data)] can go.  The
    compiler trusts the annotation and nothing checks it when the program
    runs: data that is iterable, with entry objects, but not of the
    declared type gives a map that the typed model cannot hold. *)
Inductive MapResult :=
  | MapOk (m : JsMap.t Reminder)
  | MapTypeError
  | MapUntyped.

Definition Reminder_of_json (j : json) : option Reminder :=
  match j with
  | JObject fields =>
      match json_field "id" fields, json_field "message" fields,
            json_field "time" fields, json_field "completed" fields with
      | Some (JString i), Some (JString m), Some (JString t), Some (JBool c) =>
          if (length fields =? 4)%nat then Some (mkReminder i m t c) else None
      | _, _, _, _ => None
      end
  | _ => None
  end.

Inductive EntryResult :=
  | EntryOk (k : string) (r : Reminder)
  | EntryTypeError
  | EntryUntyped.

(** An entry has to be an object; its key and value are its properties
    [0] and [1]. *)
Definition entry_of_pair (k v : option json) : EntryResult :=
  match k, v with
  | Some (JString k), Some v =>
      match Reminder_of_json v with
      | Some r => EntryOk k r
      | None => EntryUntyped
      end
  | _, _ => EntryUntyped
  end.

Definition entry_of_json (j : json) : EntryResult :=
  match j with
  | JArray l => entry_of_pair (l !! 0%nat) (l !! 1%nat)
  | JObject fields => entry_of_pair (json_field "0" fields) (json_field "1" fields)
  | _ => EntryTypeError
  end.

Fixpoint Map_of_items (items : list json) (m : JsMap.t Reminder) : MapResult :=
  match items with
  | [] => MapOk m
  | j :: rest =>
      match entry_of_json j with
      | EntryOk k r => Map_of_items rest (JsMap.set k r m)
      | EntryTypeError => MapTypeError
      | EntryUntyped =>
          (* a later item that is no object still throws *)
          match Map_of_items rest m with
          | MapTypeError => MapTypeError
          | _ => MapUntyped
          end
      end
  end.

Definition Map_of_json (data : json) : MapResult :=
  match data with
  | JNull => MapOk JsMap.empty
  | JArray items => Map_of_items items JsMap.empty
  | JString EmptyString => MapOk JsMap.empty
  | _ => MapTypeError
  end.

(** ** Numbers

    A JavaScript Number is an IEEE 754 binary64 value; the arithmetic is
    the one [SpecFloat] specifies, with round to nearest, ties to even. *)

Module Number.
Definition prec : Z := 53.
Definition emax : Z := 1024.

Definition mul : spec_float -> spec_float -> spec_float := SFmul prec emax.
Definition add : spec_float -> spec_float -> spec_float := SFadd prec emax.

(** An integer literal. *)
Definition of_Z (z : Z) : spec_float := binary_normalize prec emax z 0 false.

(** The integer part, downwards, of a finite value. *)
Definition floorZ (s : bool) (m : positive) (e : Z) : Z :=
  Z.shiftl (cond_Zopp s (Z.pos m)) e.

(** [Math.floor] *)
Definition floor (x : spec_float) : spec_float :=
  match x with
  | S754_finite s m e => of_Z (floorZ s m e)
  | _ => x
  end.

Definition digit_char (d : Z) : ascii := ascii_of_N (Z.to_N (48 + d)).

Definition digit (d : Z) : string := String (digit_char d) EmptyString.

(** The decimal digits of [n >= 0], most significant first; [fuel]
    bounds their number. *)
Fixpoint digits (fuel : nat) (n : Z) (acc : string) : string :=
  let acc' := digit (n mod 10) +:+ acc in
  match fuel with
  | O => acc'
  | S fuel' => if n <? 10 then acc' else digits fuel' (n / 10) acc'
  end.

Definition Z_toString (z : Z) : string :=
  if z <? 0 then "-" +:+ digits (Z.to_nat (Z.log2 (- z))) (- z) EmptyString
  else digits (Z.to_nat (Z.log2 z)) z EmptyString.

(** [Number.prototype.toString()] of a value with no fraction part and
    of magnitude below 10^21 (larger ones are printed with an exponent,
    others with a decimal point): all that is printed here is a result
    of [Math.floor]. *)
Definition toString (x : spec_float) : string :=
  match x with
  | S754_nan => "NaN"
  | S754_infinity false => "Infinity"
  | S754_infinity true => "-Infinity"
  | S754_zero _ => "0"
  | S754_finite s m e => Z_toString (floorZ s m e)
  end.

(** Reading a decimal numeral back. *)
Definition digit_value (c : ascii) : option Z :=
  let n := Z.of_N (N_of_ascii c) in
  if (48 <=? n) && (n <=? 57) then Some (n - 48) else None.

Fixpoint parse_digits (s : string) (acc : Z) : option Z :=
  match s with
  | EmptyString => Some acc
  | String c s' =>
      match digit_value c with
      | Some d => parse_digits s' (10 * acc + d)
      | None => None
      end
  end.

Fixpoint all_digits (s : string) : bool :=
  match s with
  | EmptyString => true
  | String c s' =>
      match digit_value c with
      | Some _ => all_digits s'
      | None => false
      end
  end.

(** What [Math.random()] may return: a binary64 value that is at least
    0 and less than 1. *)
Definition unit_interval (x : spec_float) : bool :=
  match x with
  | S754_zero false => true
  | S754_finite false m e =>
      bounded prec emax m e && (Z.pos (digits2_pos m) + e <=? 0)
  | _ => false
  end.

(** The binary64 forms of the two literals, 10000000 = m * 2^-29 and
    90000000 = m * 2^-26, and the largest product below 90000000 in
    units of 2^-1074. *)
Definition mantissa_10000000 : positive := 5368709120000000.
Definition mantissa_90000000 : positive := 6039797760000000.
Definition product_bound : Z := (Z.pos mantissa_90000000 - 1) * 2 ^ 1048.
End Number.

(** The two steps of [binary_round_aux] on an exact positive value
    [mx * 2^ex], as relations between what goes in and what comes out. *)
Section Rounding.
Variables prec emax : Z.

(** The first shift, and the rounding to nearest. *)
Definition rounded (mx ex m1 e1 : Z) : Prop :=
  let n := fexp prec emax (Zdigits2 mx + ex) - ex in
  (n <= 0 /\ m1 = mx /\ e1 = ex) \/
  (0 < n /\ e1 = ex + n /\
   (m1 = mx / 2 ^ n \/
    (m1 = mx / 2 ^ n + 1 /\ Z.odd (mx / 2 ^ (n - 1)) = true))).

(** The second shift, which drops what it shifts out. *)
Definition truncated (m1 e1 m2 e2 : Z) : Prop :=
  let n := fexp prec emax (Zdigits2 m1 + e1) - e1 in
  (n <= 0 /\ m2 = m1 /\ e2 = e1) \/
  (0 < n /\ e2 = e1 + n /\ m2 = m1 / 2 ^ n).
End Rounding.

(** ** [moment]

    A moment is invalid or an instant; the instant is counted in
    milliseconds of local time, so that a calendar day is 86400000 of
    them.  [isSame], [isBefore] and [isSameOrBefore] are the ones of the
    library for the unit ["day"]. *)

Module Moment.
Inductive t :=
  | Invalid
  | Valid (ms : Z).

Definition ms_per_day : Z := 86400000.

Definition day (x : Z) : Z := x / ms_per_day.

Definition startOf_day (x : Z) : Z := x - x mod ms_per_day.

Definition endOf_day (x : Z) : Z := startOf_day x + ms_per_day - 1.

Definition isSame_day (a b : t) : bool :=
  match a, b with
  | Valid x, Valid y => (startOf_day x <=? y) && (y <=? endOf_day x)
  | _, _ => false
  end.

Definition isBefore_day (a b : t) : bool :=
  match a, b with
  | Valid x, Valid y => endOf_day x <? y
  | _, _ => false
  end.

Definition isSameOrBefore_day (a b : t) : bool :=
  isSame_day a b || isBefore_day a b.

(** The days from 1970-01-01 to a date of the Gregorian calendar, and
    back. *)
Definition days_from_civil (y m d : Z) : Z :=
  let y' := if m <=? 2 then y - 1 else y in
  let era := y' / 400 in
  let yoe := y' - era * 400 in
  let doy := (153 * (if 2 <? m then m - 3 else m + 9) + 2) / 5 + d - 1 in
  let doe := yoe * 365 + yoe / 4 - yoe / 100 + doy in
  era * 146097 + doe - 719468.

Definition civil_from_days (z : Z) : Z * Z * Z :=
  let z' := z + 719468 in
  let era := z' / 146097 in
  let doe := z' - era * 146097 in
  let yoe := (doe - doe / 1460 + doe / 36524 - doe / 146096) / 365 in
  let doy := doe - (365 * yoe + yoe / 4 - yoe / 100) in
  let mp := (5 * doy + 2) / 153 in
  let d := doy - (153 * mp + 2) / 5 + 1 in
  let m := if mp <? 10 then mp + 3 else mp - 9 in
  (if m <=? 2 then yoe + era * 400 + 1 else yoe + era * 400, m, d).

Definition leap (y : Z) : bool :=
  ((y mod 4 =? 0) && negb (y mod 100 =? 0)) || (y mod 400 =? 0).

Definition days_in_month (y m : Z) : Z :=
  if m =? 2 then (if leap y then 29 else 28)
  else if (m =? 4) || (m =? 6) || (m =? 9) || (m =? 11) then 30
  else 31.

Definition number2 (c1 c2 : ascii) : option Z :=
  match Number.digit_value c1, Number.digit_value c2 with
  | Some a, Some b => Some (10 * a + b)
  | _, _ => None
  end.

(** The time of day after the date: nothing, or [" HH:mm"]. *)
Definition time_of_day (s : string) : option Z :=
  match s with
  | EmptyString => Some 0
  | String " "%char (String h1 (String h2 (String ":"%char
    (String m1 (String m2 EmptyString))))) =>
      match number2 h1 h2, number2 m1 m2 with
      | Some h, Some mi =>
          if ((h <=? 23) && (mi <=? 59)) || ((h =? 24) && (mi =? 0))
          then Some ((h * 60 + mi) * 60000) else None
      | _, _ => None
      end
  | _ => None
  end.

(** [moment(s)] for the strings of the forms [YYYY-MM-DD] and
    [YYYY-MM-DD HH:mm], the form the interface documents for [time];
    a month, day, hour or minute out of range makes the moment
    invalid. *)
Definition of_documented (s : string) : t :=
  match s with
  | String y1 (String y2 (String y3 (String y4 (String "-"%char (String m1
      (String m2 (String "-"%char (String d1 (String d2 rest))))))))) =>
      match number2 y1 y2, number2 y3 y4, number2 m1 m2, number2 d1 d2,
            time_of_day rest with
      | Some yh, Some yl, Some m, Some d, Some ms =>
          let y := 100 * yh + yl in
          if (1 <=? m) && (m <=? 12) && (1 <=? d) && (d <=? days_in_month y m)
          then Valid (days_from_civil y m d * ms_per_day + ms)
          else Invalid
      | _, _, _, _, _ => Invalid
      end
  | _ => Invalid
  end.

Definition pad (width : nat) (n : Z) : string :=
  let s := Number.Z_toString n in
  String.concat EmptyString (replicate (width - String.length s) "0"%string) +:+ s.

(** [format("YYYY-MM-DD")] for the years 0 to 9999. *)
Definition format_YYYY_MM_DD (x : Z) : string :=
  let '(y, m, d) := civil_from_days (day x) in
  pad 4 y +:+ "-" +:+ pad 2 m +:+ "-" +:+ pad 2 d.
End Moment.

(** ** [class ReminderDatabase] *)

Record ReminderDatabase := mkDb {
  reminders : JsMap.t Reminder;
  filename : string
}.

(** An operation runs on the object and on the file system around it, and
    either returns a value or lets an exception out.  The object and the
    disk are given as they are at that point in both cases. *)
Inductive Outcome (A : Type) :=
  | Returned (a : A) (db : ReminderDatabase) (fs : FileSystem)
  | Raised (db : ReminderDatabase) (fs : FileSystem).
Arguments Returned {A} a db fs.
Arguments Raised {A} db fs.

Definition outcome_db {A} (o : Outcome A) : ReminderDatabase :=
  match o with Returned _ db _ | Raised db _ => db end.

Definition outcome_fs {A} (o : Outcome A) : FileSystem :=
  match o with Returned _ _ fs | Raised _ fs => fs end.

Definition with_reminders (db : ReminderDatabase) (m : JsMap.t Reminder)
  : ReminderDatabase :=
  {| reminders := m; filename := filename db |}.

Definition saveToFile (db : ReminderDatabase) (fs : FileSystem)
  : option FileSystem :=
  writeJsonSync (filename db) (json_of_entries (JsMap.entries (reminders db))) fs.

(** The tail of every mutating method: [this.saveToFile(); return msg]. *)
Definition save_and_return (msg : string) (db : ReminderDatabase)
  (fs : FileSystem) : Outcome string :=
  match saveToFile db fs with
  | Some fs' => Returned msg db fs'
  | None => Raised db fs
  end.

(** [None] where the file holds a collection that is not a
    [Map<string, Reminder>] (see [MapUntyped]). *)
Definition loadFromFile (db : ReminderDatabase) (fs : FileSystem)
  : option ReminderDatabase :=
  if existsSync (filename db) fs then
    match readJsonSync (filename db) fs with
    | None => Some (with_reminders db JsMap.empty)
    | Some data =>
        match Map_of_json data with
        | MapOk m => Some (with_reminders db m)
        | MapTypeError => Some (with_reminders db JsMap.empty)
        | MapUntyped => None
        end
    end
  else Some db.

Definition constructor (file : string) (fs : FileSystem)
  : option ReminderDatabase :=
  loadFromFile {| reminders := JsMap.empty; filename := file |} fs.

Definition default_filename : string := "reminders.json".

(** [Math.floor(10000000 + Math.random() * 90000000).toString()], with
    [r] the value [Math.random()] returned. *)
Definition draw_id (r : spec_float) : string :=
  Number.toString
    (Number.floor
       (Number.add (Number.of_Z 10000000)
          (Number.mul r (Number.of_Z 90000000)))).

(** Generate a unique 8-digit numeric ID.  [rng] holds the values the next
    calls of [Math.random()] return; the loop ends at the first one whose
    id is free, and is still running ([None]) when [rng] is used up. *)
Fixpoint generateUniqueId (rng : list spec_float) (db : ReminderDatabase)
  : option (string * list spec_float) :=
  match rng with
  | [] => None
  | r :: rng' =>
      let i := draw_id r in
      if JsMap.has i (reminders db) then generateUniqueId rng' db
      else Some (i, rng')
  end.

Definition created (i : string) : string := "Reminder created with ID: " +:+ i.

Definition createReminder (msg tm : string) (rng : list spec_float)
  (db : ReminderDatabase) (fs : FileSystem)
  : option (Outcome string * list spec_float) :=
  match generateUniqueId rng db with
  | None => None
  | Some (i, rng') =>
      Some (save_and_return (created i)
              (with_reminders db
                 (JsMap.set i {| id := i; message := msg; time := tm;
                                 completed := false |} (reminders db))) fs,
            rng')
  end.

Definition exists_ (i : string) (db : ReminderDatabase) : bool :=
  JsMap.has i (reminders db).

Definition not_found (i : string) : string := "Reminder " +:+ i +:+ " not found.".

Definition set_completed (b : bool) (r : Reminder) : Reminder :=
  {| id := id r; message := message r; time := time r; completed := b |}.

(** [this.reminders.get(id)!.field = v] writes into the object the map
    holds: the entry keeps its place. *)
Definition modify (i : string) (f : Reminder -> Reminder)
  (m : JsMap.t Reminder) : JsMap.t Reminder :=
  match JsMap.get i m with
  | Some r => JsMap.set i (f r) m
  | None => m
  end.

Definition markReminderAsCompleted (i : string) (db : ReminderDatabase)
  (fs : FileSystem) : Outcome string :=
  if negb (JsMap.has i (reminders db)) then Returned (not_found i) db fs
  else
    save_and_return ("Reminder " +:+ i +:+ " marked as completed.")
      (with_reminders db (modify i (set_completed true) (reminders db))) fs.

Definition unmarkReminderAsCompleted (i : string) (db : ReminderDatabase)
  (fs : FileSystem) : Outcome string :=
  if negb (JsMap.has i (reminders db)) then Returned (not_found i) db fs
  else
    save_and_return ("Reminder " +:+ i +:+ " unmarked as completed.")
      (with_reminders db (modify i (set_completed false) (reminders db))) fs.

Definition getAllReminders (db : ReminderDatabase) : list Reminder :=
  JsMap.values (reminders db).

(** [this.reminders.get(id) || null]: an object is never falsy. *)
Definition getReminder (i : string) (db : ReminderDatabase) : option Reminder :=
  JsMap.get i (reminders db).

Definition getAllRemindersMarkedAsCompleted (db : ReminderDatabase)
  : list Reminder :=
  List.filter (fun reminder => completed reminder) (JsMap.values (reminders db)).

Definition getAllRemindersNotMarkedAsCompleted (db : ReminderDatabase)
  : list Reminder :=
  List.filter (fun reminder => negb (completed reminder))
    (JsMap.values (reminders db)).

Section DueByToday.
(** [moment(string)] and [moment().format("YYYY-MM-DD")], the second as
    a function of the instant of the call. *)
Variable moment : string -> Moment.t.
Variable format_today : Z -> string.

(** Get all reminders due by today *)
Definition getAllRemindersDueByToday (now : Z) (db : ReminderDatabase)
  : list Reminder :=
  let today := format_today now in
  List.filter
    (fun reminder =>
       Moment.isSameOrBefore_day (moment (time reminder)) (moment today))
    (JsMap.values (reminders db)).
End DueByToday.

(** [if (message)]: [undefined] and the empty string are falsy. *)
Definition truthy (s : option string) : option string :=
  match s with
  | Some EmptyString | None => None
  | Some s => Some s
  end.

Definition update_fields (msg tm : option string) (r : Reminder) : Reminder :=
  let r1 :=
    match truthy msg with
    | Some m => {| id := id r; message := m; time := time r;
                   completed := completed r |}
    | None => r
    end in
  match truthy tm with
  | Some t => {| id := id r1; message := message r1; time := t;
                 completed := completed r1 |}
  | None => r1
  end.

Definition updateReminder (i : string) (msg tm : option string)
  (db : ReminderDatabase) (fs : FileSystem) : Outcome string :=
  if negb (JsMap.has i (reminders db)) then Returned (not_found i) db fs
  else
    match JsMap.get i (reminders db) with
    | Some reminder =>
        save_and_return ("Reminder " +:+ i +:+ " updated.")
          (with_reminders db
             (JsMap.set i (update_fields msg tm reminder) (reminders db))) fs
    | None => Returned (not_found i) db fs
    end.

Definition removeReminder (i : string) (db : ReminderDatabase)
  (fs : FileSystem) : Outcome string :=
  if negb (JsMap.has i (reminders db)) then Returned (not_found i) db fs
  else
    save_and_return ("Reminder " +:+ i +:+ " deleted.")
      (with_reminders db (JsMap.delete i (reminders db))) fs.

(** The mutating choices of the menu, and the states a run of them
    leads to.  A run goes on as long as the methods return. *)
Inductive Command :=
  | Create (msg tm : string)
  | Update (i : string) (msg tm : option string)
  | Remove (i : string)
  | MarkCompleted (i : string)
  | UnmarkCompleted (i : string).

Definition exec (c : Command) (rng : list spec_float) (db : ReminderDatabase)
  (fs : FileSystem) : option (Outcome string * list spec_float) :=
  match c with
  | Create msg tm => createReminder msg tm rng db fs
  | Update i msg tm => Some (updateReminder i msg tm db fs, rng)
  | Remove i => Some (removeReminder i db fs, rng)
  | MarkCompleted i => Some (markReminderAsCompleted i db fs, rng)
  | UnmarkCompleted i => Some (unmarkReminderAsCompleted i db fs, rng)
  end.

Inductive reachable (db0 : ReminderDatabase) (fs0 : FileSystem)
  : ReminderDatabase -> FileSystem -> Prop :=
  | reach_start : reachable db0 fs0 db0 fs0
  | reach_step db fs c rng rng' ret db' fs' :
      reachable db0 fs0 db fs ->
      exec c rng db fs = Some (Returned ret db' fs', rng') ->
      reachable db0 fs0 db' fs'.

(** Every key is the [id] of its reminder. *)
Definition keys_are_ids (m : JsMap.t Reminder) : Prop :=
  Forall (fun kv => id (snd kv) = fst kv) m.

(** A free id among the values [Math.random()] is going to return. *)
Definition free_draw (db : ReminderDatabase) (x : spec_float) : Prop :=
  JsMap.has (draw_id x) (reminders db) = false.

(** The queries of the menu; each one hands the list to [console.log]. *)
Inductive Query :=
  | ListAll
  | ListCompleted
  | ListPending.

Definition exec_query (q : Query) (db : ReminderDatabase) (fs : FileSystem)
  : Outcome (list Reminder) :=
  match q with
  | ListAll => Returned (getAllReminders db) db fs
  | ListCompleted => Returned (getAllRemindersMarkedAsCompleted db) db fs
  | ListPending => Returned (getAllRemindersNotMarkedAsCompleted db) db fs
  end.

(** A map as the methods keep it. *)
Definition well_formed (db : ReminderDatabase) : Prop :=
  NoDup (JsMap.keys (reminders db)) /\ keys_are_ids (reminders db).


(** An id as [generateUniqueId] makes it. *)
Definition eight_digits (i : string) : Prop :=
  String.length i = 8%nat /\ Number.all_digits i = true.

(** A JSON value that is no object: as an item of the array it makes
    [new Map(data)] throw. *)
Definition primitive (j : json) : bool :=
  match j with
  | JArray _ | JObject _ => false
  | _ => true
  end.

(** A JSON value other than an array on which [new Map(data)] throws: it
    cannot be iterated, or it is a string, whose characters are no
    entries. *)
Definition rejected_by_Map (data : json) : bool :=
  match data with
  | JBool _ | JNumber _ | JObject _ => true
  | JString (String _ _) => true
  | _ => false
  end.

(** [markReminderAsCompleted] for [true], [unmarkReminderAsCompleted]
    for [false]. *)
Definition assign_completed (b : bool)
  : string -> ReminderDatabase -> FileSystem -> Outcome string :=
  if b then markReminderAsCompleted else unmarkReminderAsCompleted.

(** ** The interactive prompt

    [readlineSync.question] prints its prompt and returns the next line
    of the terminal; [console.log] is given a string, a reminder or a
    list of reminders.  A session is described by the lines that were
    entered, each with the instant at which it was, and by what was
    printed. *)

Record Line := mkLine {
  entered : Z;
  text : string
}.

Inductive Value :=
  | VString (s : string)
  | VReminder (r : Reminder)
  | VList (l : list Reminder).

Inductive Event :=
  | Log (v : Value)
  | Question (prompt : string).

(** How far a session got: the loop returned, it waits for a line that
    was not entered, an exception left it, or [generateUniqueId] is
    still drawing. *)
Inductive Ending :=
  | Exited
  | Waiting
  | Crashed
  | Spinning.

Record Session := mkSession {
  ending : Ending;
  events : list Event;
  final_db : ReminderDatabase;
  final_fs : FileSystem;
  final_rng : list spec_float
}.

Definition say (evs : list Event) (s : Session) : Session :=
  {| ending := ending s; events := evs ++ events s; final_db := final_db s;
     final_fs := final_fs s; final_rng := final_rng s |}.

Definition menu : list Event :=
  [Log (VString (String "010"%char "Choose an option:"));
   Log (VString "1. Create Reminder");
   Log (VString "2. Retrieve Reminder");
   Log (VString "3. Update Reminder");
   Log (VString "4. Delete Reminder");
   Log (VString "5. Show All Reminders");
   Log (VString "6. Mark Reminder as Completed");
   Log (VString "7. Unmark Reminder as Completed");
   Log (VString "8. Show Completed Reminders");
   Log (VString "9. Show Pending Reminders");
   Log (VString "10. Show Due Reminders");
   Log (VString "11. Exit");
   Question "Enter your choice: "].

Definition ask_id : Event := Question "Enter reminder ID: ".

(** [s || undefined] *)
Definition or_undefined (s : string) : option string :=
  match s with
  | EmptyString => None
  | _ => Some s
  end.

(** [console.log(method(...)); break;]: the sentence is printed and the
    loop goes on, unless the method threw. *)
Definition log_outcome (evs : list Event) (o : Outcome string)
  (rng : list spec_float)
  (continue : ReminderDatabase -> FileSystem -> Session) : Session :=
  match o with
  | Returned ret db fs => say (evs ++ [Log (VString ret)]) (continue db fs)
  | Raised db fs =>
      {| ending := Crashed; events := evs; final_db := db; final_fs := fs;
         final_rng := rng |}
  end.

Section Prompt.
Variable moment : string -> Moment.t.
Variable format_today : Z -> string.

Fixpoint promptUser (input : list Line) (db : ReminderDatabase)
  (fs : FileSystem) (rng : list spec_float) {struct input} : Session :=
  let stop e evs :=
    {| ending := e; events := evs; final_db := db; final_fs := fs;
       final_rng := rng |} in
  match input with
  | [] => stop Waiting menu
  | choice :: rest =>
      if String.eqb (text choice) "1" then
        match rest with
        | [] => stop Waiting (menu ++ [Question "Enter reminder message: "])
        | message :: rest1 =>
            let asked :=
              menu ++ [Question "Enter reminder message: ";
                       Question "Enter reminder time (YYYY-MM-DD HH:mm): "] in
            match rest1 with
            | [] => stop Waiting asked
            | time :: rest2 =>
                match createReminder (text message) (text time) rng db fs with
                | None => stop Spinning asked
                | Some (o, rng') =>
                    log_outcome asked o rng'
                      (fun db' fs' => promptUser rest2 db' fs' rng')
                end
            end
        end
      else if String.eqb (text choice) "2" then
        match rest with
        | [] => stop Waiting (menu ++ [ask_id])
        | line :: rest1 =>
            say (menu ++ [ask_id;
                          Log (match getReminder (text line) db with
                               | Some r => VReminder r
                               | None => VString "Reminder not found."
                               end)])
              (promptUser rest1 db fs rng)
        end
      else if String.eqb (text choice) "3" then
        match rest with
        | [] => stop Waiting (menu ++ [ask_id])
        | updateId :: rest1 =>
            let asked1 :=
              menu ++ [ask_id;
                Question "Enter new message (leave blank to keep the same): "] in
            match rest1 with
            | [] => stop Waiting asked1
            | newMessage :: rest2 =>
                let asked2 :=
                  asked1 ++ [Question
                    "Enter new time (YYYY-MM-DD HH:mm) (leave blank to keep the same): "] in
                match rest2 with
                | [] => stop Waiting asked2
                | newTime :: rest3 =>
                    log_outcome asked2
                      (updateReminder (text updateId)
                         (or_undefined (text newMessage))
                         (or_undefined (text newTime)) db fs) rng
                      (fun db' fs' => promptUser rest3 db' fs' rng)
                end
            end
        end
      else if String.eqb (text choice) "4" then
        match rest with
        | [] => stop Waiting (menu ++ [ask_id])
        | line :: rest1 =>
            log_outcome (menu ++ [ask_id])
              (removeReminder (text line) db fs) rng
              (fun db' fs' => promptUser rest1 db' fs' rng)
        end
      else if String.eqb (text choice) "5" then
        say (menu ++ [Log (VList (getAllReminders db))])
          (promptUser rest db fs rng)
      else if String.eqb (text choice) "6" then
        match rest with
        | [] => stop Waiting (menu ++ [ask_id])
        | line :: rest1 =>
            log_outcome (menu ++ [ask_id])
              (markReminderAsCompleted (text line) db fs) rng
              (fun db' fs' => promptUser rest1 db' fs' rng)
        end
      else if String.eqb (text choice) "7" then
        match rest with
        | [] => stop Waiting (menu ++ [ask_id])
        | line :: rest1 =>
            log_outcome (menu ++ [ask_id])
              (unmarkReminderAsCompleted (text line) db fs) rng
              (fun db' fs' => promptUser rest1 db' fs' rng)
        end
      else if String.eqb (text choice) "8" then
        say (menu ++ [Log (VList (getAllRemindersMarkedAsCompleted db))])
          (promptUser rest db fs rng)
      else if String.eqb (text choice) "9" then
        say (menu ++ [Log (VList (getAllRemindersNotMarkedAsCompleted db))])
          (promptUser rest db fs rng)
      else if String.eqb (text choice) "10" then
        say (menu ++ [Log (VList (getAllRemindersDueByToday moment format_today
                                    (entered choice) db))])
          (promptUser rest db fs rng)
      else if String.eqb (text choice) "11" then
        stop Exited (menu ++ [Log (VString "Goodbye!")])
      else
        say (menu ++ [Log (VString "Invalid choice, please try again.")])
          (promptUser rest db fs rng)
  end.

(** [const db = new ReminderDatabase(); ... promptUser();]  [None] as
    for [loadFromFile]. *)
Definition main (fs : FileSystem) (rng : list spec_float)
  (input : list Line) : option Session :=
  match constructor default_filename fs with
  | Some db => Some (promptUser input db fs rng)
  | None => None
  end.
End Prompt.

(** The choices of the menu that call a method that writes. *)
Definition mutating_choice (s : string) : bool :=
  String.eqb s "1" || String.eqb s "3" || String.eqb s "4"
  || String.eqb s "6" || String.eqb s "7".
(** ** Examples *)

Definition one_half : spec_float := S754_finite false (2 ^ 52) (-53).

Definition no_files : FileSystem := {| files := ∅; denied := ∅ |}.

Definition new_db : ReminderDatabase :=
  {| reminders := JsMap.empty; filename := default_filename |}.

Definition milk : Reminder :=
  {| id := "55000000"; message := "buy milk"; time := "2024-01-01 10:00";
     completed := false |}.

Definition milk_db : ReminderDatabase :=
  {| reminders := [("55000000"%string, milk)]; filename := default_filename |}.

(** The disk after [milk] was created in a new store. *)
Definition milk_fs : FileSystem :=
  {| files := <[default_filename :=
                  Json (json_of_entries [("55000000"%string, milk)])]> ∅;
     denied := ∅ |}.

(** A disk on which the file of the store may not be written. *)
Definition locked_fs : FileSystem :=
  {| files := ∅; denied := {[default_filename]} |}.

Definition noon_2024_01_02 : Z :=
  Moment.days_from_civil 2024 1 2 * Moment.ms_per_day + 12 * 3600000.

Definition yesterday_reminder : Reminder :=
  {| id := "10000001"; message := "pay rent"; time := "2024-01-01 10:00";
     completed := false |}.

Definition tomorrow_reminder : Reminder :=
  {| id := "10000002"; message := "call home"; time := "2024-01-03 09:30";
     completed := false |}.

Definition two_days_db : ReminderDatabase :=
  {| reminders := [("10000001"%string, yesterday_reminder);
                   ("10000002"%string, tomorrow_reminder)];
     filename := default_filename |}.

(** Two sessions at the prompt, at noon of 2024-01-02: one creates a
    reminder, marks it and asks for the due ones; one only looks. *)
Definition at_noon (s : string) : Line :=
  {| entered := noon_2024_01_02; text := s |}.

Definition milk_session : list Line :=
  [at_noon "1"; at_noon "buy milk"; at_noon "2024-01-01 10:00";
   at_noon "6"; at_noon "55000000"; at_noon "10"; at_noon "11"].

Definition looking_session : list Line :=
  [at_noon "5"; at_noon "2"; at_noon "55000000"; at_noon "9";
   at_noon "what"; at_noon "11"].
(** * Properties *)

(** ** The map *)

Module JsMapFacts.
Import JsMap.
Section Facts.
Context {V : Type}.
Implicit Types (m : JsMap.t V) (k : string) (v : V).

Lemma has_get k m : has k m = true <-> exists v, get k m = Some v.
Proof.
  unfold has. destruct (get k m); split; intros H; eauto; try discriminate.
  destruct H as [? H]; discriminate.
Qed.

Lemma has_false_get k m : has k m = false <-> get k m = None.
Proof. unfold has. destruct (get k m); split; congruence. Qed.

Lemma get_In_keys k m : has k m = true <-> k ∈ keys m.
Proof.
  unfold has, keys. induction m as [|[k' v'] m IH]; simpl.
  - split; [discriminate | intros H; inversion H].
  - destruct (String.eqb_spec k' k) as [->|Hne].
  + split; [intros _; left | reflexivity].
  + rewrite IH. split; [intros H; by right |].
    intros H. inversion H; subst; [congruence | done].
Qed.

Lemma get_In k m v : get k m = Some v -> (k, v) ∈ m.
Proof.
  induction m as [|[k' v'] m IH]; simpl; [discriminate |].
  destruct (String.eqb_spec k' k) as [->|Hne].
  - intros [= ->]. left.
  - intros H. right. auto.
Qed.

Lemma In_get k m v : NoDup (keys m) -> (k, v) ∈ m -> get k m = Some v.
Proof.
  induction m as [|[k' v'] m IH]; simpl; intros Hnd Hin.
  - inversion Hin.
  - apply NoDup_cons in Hnd as [Hk Hnd].
  apply elem_of_cons in Hin as [[= <- <-]|Hin].
  + by rewrite String.eqb_refl.
  + destruct (String.eqb_spec k' k) as [->|Hne]; [|auto].
    exfalso. apply Hk. unfold keys.
    apply list_elem_of_fmap. by exists (k, v).
Qed.

Lemma get_set_eq k v m : get k (set k v m) = Some v.
Proof.
  induction m as [|[k' v'] m IH]; simpl.
  - by rewrite String.eqb_refl.
  - destruct (String.eqb_spec k' k) as [->|Hne]; simpl.
  + by rewrite String.eqb_refl.
  + by apply String.eqb_neq in Hne as ->.
Qed.

Lemma get_set_ne k k' v m : k <> k' -> get k' (set k v m) = get k' m.
Proof.
  intros Hne. induction m as [|[k0 v0] m IH]; simpl.
  - by apply String.eqb_neq in Hne as ->.
  - destruct (String.eqb_spec k0 k) as [->|Hne0]; simpl.
  + by apply String.eqb_neq in Hne as ->.
  + by rewrite IH.
Qed.

Lemma set_has k v m : has k m = true -> keys (set k v m) = keys m.
Proof.
  unfold has, keys. induction m as [|[k' v'] m IH]; simpl; [discriminate |].
  destruct (String.eqb_spec k' k) as [->|Hne]; simpl; [done |].
  intros H. by rewrite IH.
Qed.

Lemma set_fresh k v m : has k m = false -> set k v m = m ++ [(k, v)].
Proof.
  unfold has. induction m as [|[k' v'] m IH]; simpl; [done |].
  destruct (String.eqb_spec k' k) as [->|Hne]; simpl; [discriminate |].
  intros H. by rewrite IH.
Qed.

Lemma keys_set k v m :
  keys (set k v m) = if has k m then keys m else keys m ++ [k].
Proof.
  destruct (has k m) eqn:H.
  - by apply set_has.
  - rewrite set_fresh by done. unfold keys. by rewrite map_app.
Qed.

Lemma get_delete_eq k m : get k (delete k m) = None.
Proof.
  induction m as [|[k' v'] m IH]; simpl; [done |].
  destruct (String.eqb_spec k' k) as [->|Hne]; simpl; [done |].
  by apply String.eqb_neq in Hne as ->.
Qed.

Lemma get_delete_ne k k' m : k <> k' -> get k' (delete k m) = get k' m.
Proof.
  intros Hne. induction m as [|[k0 v0] m IH]; simpl; [done |].
  destruct (String.eqb_spec k0 k) as [->|Hne0]; simpl.
  - by apply String.eqb_neq in Hne as ->.
  - by rewrite IH.
Qed.

Lemma delete_sublist k m : delete k m `sublist_of` m.
Proof.
  induction m as [|[k' v'] m IH]; simpl; [done |].
  destruct (String.eqb k' k); by constructor.
Qed.

Lemma delete_absent k m : has k m = false -> delete k m = m.
Proof.
  unfold has. induction m as [|[k' v'] m IH]; simpl; [done |].
  destruct (String.eqb_spec k' k) as [->|Hne]; simpl; [discriminate |].
  intros H. by rewrite IH.
Qed.

Lemma NoDup_keys_set k v m : NoDup (keys m) -> NoDup (keys (set k v m)).
Proof.
  intros Hnd. rewrite keys_set. destruct (has k m) eqn:H; [done |].
  apply NoDup_app. split_and!; [done | | apply NoDup_singleton].
  intros x Hx ->%list_elem_of_singleton.
  apply get_In_keys in Hx. congruence.
Qed.

Lemma NoDup_keys_delete k m : NoDup (keys m) -> NoDup (keys (delete k m)).
Proof.
  unfold keys. intros Hnd. eapply sublist_NoDup; [exact Hnd |].
  apply (fmap_sublist fst), delete_sublist.
Qed.

(** Reading back the entries of a map builds the same map. *)
Lemma fold_set_app (l : list (string * V)) m :
  NoDup (keys (m ++ l)) ->
  fold_left (fun m kv => set (fst kv) (snd kv) m) l m = m ++ l.
Proof.
  revert m. induction l as [|[k v] l IH]; intros m Hnd; simpl.
  - by rewrite app_nil_r.
  - assert (Hfresh : has k m = false).
  { destruct (has k m) eqn:H; [|done]. exfalso.
    apply get_In_keys in H. unfold keys in Hnd. rewrite map_app in Hnd.
    apply NoDup_app in Hnd as (_ & Hdisj & _).
    apply (Hdisj k H). left. }
  rewrite set_fresh by done.
  rewrite IH; rewrite <- app_assoc; done.
Qed.

Lemma from_entries_entries m :
  NoDup (keys m) -> from_entries (entries m) = m.
Proof. intros Hnd. unfold from_entries, entries, empty. by rewrite fold_set_app. Qed.
End Facts.
End JsMapFacts.

(** ** Rounding to binary64

    [SpecFloat] rounds by shifting the mantissa to the right, one bit at
    a time, and keeping the last bit shifted out and whether a lower one
    was set.  The lemmas below read that off as a quotient by a power of
    two, and follow the two operations of [draw_id] through it. *)

Section FloatFacts.
Import Number.

(** [digits2_pos p] is the number of bits of [p]. *)
Lemma digits2_pos_bounds (p : positive) :
  2 ^ (Z.pos (digits2_pos p) - 1) <= Z.pos p < 2 ^ Z.pos (digits2_pos p).
Proof.
  induction p as [p IH | p IH |]; simpl digits2_pos.
  - rewrite Pos2Z.inj_succ.
    replace (Z.succ (Z.pos (digits2_pos p)) - 1)
      with (Z.succ (Z.pos (digits2_pos p) - 1)) by lia.
    rewrite !Z.pow_succ_r by lia. lia.
  - rewrite Pos2Z.inj_succ.
    replace (Z.succ (Z.pos (digits2_pos p)) - 1)
      with (Z.succ (Z.pos (digits2_pos p) - 1)) by lia.
    rewrite !Z.pow_succ_r by lia. lia.
  - simpl. lia.
Qed.

Lemma iter_pos_nat {A} (f : A -> A) (p : positive) (x : A) :
  SpecFloat.iter_pos f p x = Nat.iter (Pos.to_nat p) f x.
Proof.
  revert x. induction p as [p IH | p IH |]; intros x; cbn [SpecFloat.iter_pos].
  - rewrite !IH. rewrite Pos2Nat.inj_xI.
    replace (S (2 * Pos.to_nat p)) with (Pos.to_nat p + (Pos.to_nat p + 1))%nat by lia.
    rewrite !Nat.iter_add. simpl. reflexivity.
  - rewrite !IH. rewrite Pos2Nat.inj_xO.
    replace (2 * Pos.to_nat p)%nat with (Pos.to_nat p + Pos.to_nat p)%nat by lia.
    rewrite Nat.iter_add. reflexivity.
  - reflexivity.
Qed.

(** One shift halves the mantissa and keeps its parity. *)
Lemma shr_1_nonneg m r s :
  0 <= m ->
  shr_1 {| shr_m := m; shr_r := r; shr_s := s |}
  = {| shr_m := m / 2; shr_r := Z.odd m; shr_s := r || s |}.
Proof.
  intros Hm. destruct m as [|[p|p|]|p]; try lia; simpl shr_1; f_equal.
  - rewrite Pos2Z.inj_xI. apply Z.div_unique with 1; lia.
  - rewrite Pos2Z.inj_xO. apply Z.div_unique with 0; lia.
Qed.

Lemma shr_iter (k : nat) (mx : Z) :
  0 <= mx ->
  let st := Nat.iter (S k) shr_1 {| shr_m := mx; shr_r := false; shr_s := false |} in
  shr_m st = mx / 2 ^ Z.of_nat (S k) /\
  shr_r st = Z.odd (mx / 2 ^ Z.of_nat k).
Proof.
  intros Hmx.
  assert (Hgen : forall j, exists r s,
     Nat.iter j shr_1 {| shr_m := mx; shr_r := false; shr_s := false |}
     = {| shr_m := mx / 2 ^ Z.of_nat j; shr_r := r; shr_s := s |}).
  { induction j as [|j (r & s & IH)].
    - exists false, false. simpl. now rewrite Z.div_1_r.
    - rewrite Nat.iter_succ, IH. rewrite shr_1_nonneg by (apply Z.div_pos; lia).
      eexists _, _. f_equal.
      rewrite Nat2Z.inj_succ, Z.pow_succ_r by lia.
      rewrite Z.div_div by lia. f_equal. lia. }
  cbn zeta. rewrite Nat.iter_succ. destruct (Hgen k) as (r & s & ->).
  rewrite shr_1_nonneg by (apply Z.div_pos; lia). cbn [shr_m shr_r].
  split; [|reflexivity].
  rewrite Nat2Z.inj_succ, Z.pow_succ_r by lia.
  rewrite Z.div_div by lia. f_equal. lia.
Qed.

Section Round.
Variables prec emax : Z.

(** [n] shifts divide by [2^n]; the round bit is the bit of weight
    [2^(n-1)]. *)
Lemma shr_spec (mx e n : Z) mrs e' :
  0 <= mx ->
  shr {| shr_m := mx; shr_r := false; shr_s := false |} e n = (mrs, e') ->
  (n <= 0 /\ mrs = {| shr_m := mx; shr_r := false; shr_s := false |} /\ e' = e) \/
  (0 < n /\ e' = e + n /\ shr_m mrs = mx / 2 ^ n /\
   shr_r mrs = Z.odd (mx / 2 ^ (n - 1))).
Proof.
  intros Hmx. unfold shr. destruct n as [|p|p].
  - intros [= <- <-]. left. repeat split; lia.
  - intros [= <- <-]. right. rewrite iter_pos_nat.
    destruct (Pos2Nat.is_succ p) as [k Hk]. rewrite Hk.
    destruct (shr_iter k mx Hmx) as [Hm Hr].
    rewrite Hm, Hr. 
    assert (Z.pos p = Z.of_nat (S k)) as -> by lia.
    repeat split; try lia. do 3 f_equal. lia.
  - intros [= <- <-]. left. repeat split; lia.
Qed.

(** Rounding to nearest goes up by one only when the round bit is set. *)
Lemma round_nearest_even_cases mrs :
  let m1 := round_nearest_even (shr_m mrs) (loc_of_shr_record mrs) in
  m1 = shr_m mrs \/ (m1 = shr_m mrs + 1 /\ shr_r mrs = true).
Proof.
  destruct mrs as [m [|] [|]]; simpl; auto.
  destruct (Z.even m); auto.
Qed.



(** [binary_round_aux] on an exact positive value. *)
Lemma binary_round_aux_spec (mx : positive) (ex : Z) :
  exists m1 e1 m2 e2,
    rounded prec emax (Z.pos mx) ex m1 e1 /\ truncated prec emax m1 e1 m2 e2 /\
    binary_round_aux prec emax false (Z.pos mx) ex loc_Exact
    = match m2 with
      | Z0 => S754_zero false
      | Z.pos m => if e2 <=? emax - prec then S754_finite false m e2
                   else S754_infinity false
      | Z.neg _ => S754_nan
      end.
Proof.
  unfold binary_round_aux, shr_fexp. cbn [shr_record_of_loc].
  destruct (shr {| shr_m := Z.pos mx; shr_r := false; shr_s := false |} ex
              (fexp prec emax (Zdigits2 (Z.pos mx) + ex) - ex)) as [mrs1 e1] eqn:H1.
  apply shr_spec in H1; [|lia].
  set (m1 := round_nearest_even (shr_m mrs1) (loc_of_shr_record mrs1)).
  assert (Hm1 : rounded prec emax (Z.pos mx) ex m1 e1).
  { unfold rounded. destruct H1 as [(Hn & -> & ->) | (Hn & -> & Hm & Hr)].
    - left. auto.
    - right. repeat split; try lia.
      destruct (round_nearest_even_cases mrs1) as [H | [H Hr']]; fold m1 in H.
      + left. congruence.
      + right. split; congruence. }
  assert (Hpos : 0 <= m1).
  { destruct Hm1 as [(_ & -> & _) | (Hn & _ & [-> | [-> _]])]; try lia.
    - apply Z.div_pos; lia.
    - assert (0 <= Z.pos mx / 2 ^ (fexp prec emax (Zdigits2 (Z.pos mx) + ex) - ex)) by (apply Z.div_pos; lia).
      lia. }
  destruct (shr {| shr_m := m1; shr_r := false; shr_s := false |} e1
              (fexp prec emax (Zdigits2 m1 + e1) - e1)) as [mrs2 e2] eqn:H2.
  apply shr_spec in H2; [|lia].
  exists m1, e1, (shr_m mrs2), e2. split; [exact Hm1 |]. split; [|reflexivity].
  unfold truncated. destruct H2 as [(Hn & -> & ->) | (Hn & -> & Hm & _)].
  - left. auto.
  - right. auto.
Qed.
End Round.

Lemma pow2_pos (a : Z) : 0 <= a -> 0 < 2 ^ a.
Proof. intros. apply Z.pow_pos_nonneg; lia. Qed.

Lemma pow2_le (a b : Z) : 0 <= a <= b -> 2 ^ a <= 2 ^ b.
Proof. intros. apply Z.pow_le_mono_r; lia. Qed.

Lemma pow2_lt_inv (a b : Z) : 0 <= b -> 2 ^ a < 2 ^ b -> a < b.
Proof. intros Hb H. apply (Z.pow_lt_mono_r_iff 2); lia. Qed.

Lemma pow2_split (a b : Z) : 0 <= a -> 0 <= b -> 2 ^ (a + b) = 2 ^ a * 2 ^ b.
Proof. intros. apply Z.pow_add_r; lia. Qed.

(** Truncating does not raise the value: in units of [2^-s]. *)
Lemma truncated_le prec emax m1 e1 m2 e2 s :
  truncated prec emax m1 e1 m2 e2 -> 0 <= m1 -> 0 <= e1 + s ->
  0 <= m2 /\ e1 <= e2 /\ m2 * 2 ^ (e2 + s) <= m1 * 2 ^ (e1 + s).
Proof.
  unfold truncated. intros [(Hn & -> & ->) | (Hn & -> & ->)] Hm Hs.
  - repeat split; lia.
  - set (n := fexp prec emax (Zdigits2 m1 + e1) - e1) in *.
    assert (Hp : 0 < 2 ^ n) by (apply pow2_pos; lia).
    assert (Hq : 0 < 2 ^ (e1 + s)) by (apply pow2_pos; lia).
    repeat split; try lia.
    + apply Z.div_pos; lia.
    + replace (e1 + n + s) with (n + (e1 + s)) by lia.
      rewrite pow2_split by lia. rewrite Z.mul_assoc.
      apply Z.mul_le_mono_nonneg_r; [lia |].
      pose proof (Z.mul_div_le m1 (2 ^ n) Hp). lia.
Qed.


(** [Math.random() * 90000000]: the product of a value below 1 is zero
    or a positive value of at most 90000000 - 2^-26. *)
Lemma mul_bound (m : positive) (e : Z) :
  bounded 53 1024 m e = true ->
  Z.pos (digits2_pos m) + e <= 0 ->
  let p := SFmul 53 1024 (S754_finite false m e) (S754_finite false mantissa_90000000 (-26)) in
  p = S754_zero false \/
  exists mp ep, p = S754_finite false mp ep /\ -1074 <= ep /\
    Z.pos mp * 2 ^ (ep + 1074) <= product_bound.
Proof.
  intros Hb Hlt p. unfold p, SFmul. cbn [xorb].
  unfold bounded, canonical_mantissa in Hb.
  apply andb_true_iff in Hb as [Hcan _]. apply Z.eqb_eq in Hcan.
  unfold fexp, SpecFloat.emin in Hcan.
  destruct (binary_round_aux_spec 53 1024 (m * mantissa_90000000) (e + -26))
    as (m1 & e1 & m2 & e2 & Hr & Ht & ->).
  pose proof (digits2_pos_bounds m) as Hm.
  pose proof (digits2_pos_bounds (m * mantissa_90000000)) as Hmx.
  set (dm := Z.pos (digits2_pos m)) in *.
  assert (Hdm : 0 < dm) by (unfold dm; lia).
  unfold rounded in Hr. cbn [Zdigits2] in Hr.
  set (d := Z.pos (digits2_pos (m * mantissa_90000000))) in *.
  assert (Hd0 : 0 < d) by (unfold d; lia).
  rewrite Pos2Z.inj_mul in *. set (M := Z.pos m) in *.
  assert (HM : 0 < M) by (unfold M; lia).
  (* the digits of the product *)
  assert (Hd_lo : dm + 52 <= d).
  { assert (2 ^ (dm + 51) < 2 ^ d); [|apply pow2_lt_inv in H; lia].
    replace (dm + 51) with ((dm - 1) + 52) by lia.
    rewrite pow2_split by lia.
    change (2 ^ 52) with 4503599627370496. unfold mantissa_90000000 in *. nia. }
  assert (Hd_hi : d <= dm + 53).
  { assert (2 ^ (d - 1) < 2 ^ (dm + 53)); [|apply pow2_lt_inv in H; lia].
    rewrite pow2_split by lia.
    change (2 ^ 53) with 9007199254740992. unfold mantissa_90000000 in *. 
    assert (0 < 2 ^ dm) by (apply pow2_pos; lia). nia. }
  unfold fexp, SpecFloat.emin in Hr.
  set (fe := Z.max (d + (e + -26) - 53) (3 - 1024 - 53)) in *.
  assert (Stage1 : 0 <= m1 /\ -1074 <= e1 /\ m1 * 2 ^ (e1 + 1074) <= product_bound).
  { destruct Hr as [(Hn & -> & ->) | (Hn & -> & Hm1)].
    - exfalso. unfold fe in Hn. lia.
    - replace (e + -26 + (fe - (e + -26))) with fe by lia.
      set (n := fe - (e + -26)) in *.
      assert (Hpn : 0 < 2 ^ n) by (apply pow2_pos; lia).
      assert (Hq : 0 <= M * Z.pos mantissa_90000000 / 2 ^ n) by (apply Z.div_pos; lia).
      assert (Hq53 : M * Z.pos mantissa_90000000 / 2 ^ n < 2 ^ 53).
      { apply Z.div_lt_upper_bound; [lia |].
        destruct (Z.le_gt_cases d 53) as [Hle | Hgt].
        - assert (2 ^ d <= 2 ^ 53) by (apply pow2_le; lia).
          assert (1 <= 2 ^ n) by lia. 
          assert (0 < 2 ^ 53) by (apply pow2_pos; lia). nia.
        - assert (2 ^ d <= 2 ^ n * 2 ^ 53).
          { rewrite <- pow2_split by lia. apply pow2_le. unfold n, fe. lia. }
          lia. }
      split; [lia |]. split; [unfold fe; lia |].
      destruct (Z.le_gt_cases fe (-27)) as [Hfe | Hfe].
      + (* small products *)
        assert (m1 <= 2 ^ 53) by lia.
        assert (2 ^ (fe + 1074) <= 2 ^ 1047) by (apply pow2_le; unfold fe; lia).
        assert (0 < 2 ^ (fe + 1074)) by (apply pow2_pos; unfold fe; lia).
        assert (m1 * 2 ^ (fe + 1074) <= 2 ^ 53 * 2 ^ 1047).
        { apply Z.mul_le_mono_nonneg; lia. }
        assert (2 ^ 53 * 2 ^ 1047 <= product_bound); [|lia].
        unfold product_bound, mantissa_90000000. rewrite <- pow2_split by lia.
        replace (53 + 1047) with (52 + 1048) by lia. rewrite pow2_split by lia.
        apply Z.mul_le_mono_nonneg_r; [apply Z.pow_nonneg; lia|].
        change (2 ^ 52) with 4503599627370496. lia.
      + (* the top binade: the random value is in [1/2, 1) *)
        assert (e = -53) by (unfold fe in *; lia). subst e.
        assert (dm = 53) by lia.
        assert (d = 106) by (unfold fe in *; lia).
        assert (fe = -26) by (unfold fe; lia).
        assert (n = 53) by (unfold n; lia).
        rewrite H1. change (-26 + 1074) with 1048.
        unfold product_bound. apply Z.mul_le_mono_nonneg_r; [apply Z.pow_nonneg; lia|].
        rewrite H in Hm. rewrite H2 in Hm1, Hq.
        change (53 - 1) with 52 in Hm1.
        change (2 ^ 53) with 9007199254740992 in *.
        change (2 ^ 52) with 4503599627370496 in *.
        unfold mantissa_90000000 in *.
        destruct Hm1 as [-> | [-> Hodd]].
        * Z.div_mod_to_equations. lia.
        * apply Z.odd_spec in Hodd as [c Hc].
          revert Hc. Z.div_mod_to_equations. lia. }
  destruct Stage1 as (Hm1 & He1 & Hv1).
  destruct (truncated_le 53 1024 m1 e1 m2 e2 1074 Ht Hm1 ltac:(lia))
    as (Hm2 & He2 & Hv2).
  destruct m2 as [|mp|mp]; [ | | lia].
  - left. reflexivity.
  - right. exists mp, e2.
    assert (He2' : e2 < 27).
    { assert (2 ^ (e2 + 1074) < 2 ^ 1101); [|apply pow2_lt_inv in H; lia].
      assert (product_bound < 2 ^ 1101).
      { unfold product_bound, mantissa_90000000. replace 1101 with (53 + 1048) by lia.
        rewrite pow2_split by lia.
        apply Z.mul_lt_mono_pos_r; [apply pow2_pos; lia |].
        change (2 ^ 53) with 9007199254740992. lia. }
      assert (0 < 2 ^ (e2 + 1074)) by (apply pow2_pos; lia). nia. }
    replace (e2 <=? 1024 - 53) with true by (symmetry; apply Z.leb_le; lia).
    repeat split; try lia.
Qed.

Lemma digits2_pos_unique (p : positive) (k : Z) :
  2 ^ (k - 1) <= Z.pos p < 2 ^ k -> Z.pos (digits2_pos p) = k.
Proof.
  intros Hk. pose proof (digits2_pos_bounds p) as Hd.
  set (d := Z.pos (digits2_pos p)) in *.
  assert (0 < d) by (unfold d; lia).
  assert (0 < k).
  { destruct (Z.le_gt_cases k 0) as [Hle|]; [|lia]. exfalso.
    destruct (Z.eq_dec k 0) as [-> | Hne].
    - rewrite Z.pow_0_r in Hk. lia.
    - rewrite (Z.pow_neg_r 2 k) in Hk by lia. lia. }
  assert (d - 1 < k) by (apply pow2_lt_inv; lia).
  assert (k - 1 < d) by (apply pow2_lt_inv; lia).
  lia.
Qed.

Lemma iter_xO (d m : positive) : Z.pos (Pos.iter xO m d) = Z.pos m * 2 ^ Z.pos d.
Proof.
  induction d as [|d IH] using Pos.peano_ind.
  - simpl. lia.
  - rewrite Pos.iter_succ, Pos2Z.inj_xO, IH, Pos2Z.inj_succ.
    rewrite Z.pow_succ_r by lia. lia.
Qed.

(** Aligning to a smaller exponent multiplies the mantissa. *)
Lemma shl_align_le (mx : positive) (ex ex' : Z) :
  ex' <= ex ->
  Z.pos (fst (shl_align mx ex ex')) = Z.pos mx * 2 ^ (ex - ex') /\
  snd (shl_align mx ex ex') = ex'.
Proof.
  intros Hle. unfold shl_align.
  destruct (ex' - ex) as [|d|d] eqn:Hd; cbn [fst snd]; try lia.
  - replace (ex - ex') with 0 by lia. rewrite Z.pow_0_r. split; lia.
  - rewrite iter_xO. pose proof (Pos2Z.opp_pos d) as Hneg.
    replace (ex - ex') with (Z.pos d) by lia. split; lia.
Qed.

Lemma shl_align_ge (mx : positive) (ex ex' : Z) :
  ex <= ex' -> shl_align mx ex ex' = (mx, ex).
Proof.
  intros Hle. unfold shl_align. destruct (ex' - ex) eqn:Hd; try reflexivity. lia.
Qed.


(** [10000000 + p] for such a product is at least 10000000 and less
    than 100000000. *)
Lemma add_bound (mp : positive) (ep : Z) :
  -1074 <= ep ->
  Z.pos mp * 2 ^ (ep + 1074) <= product_bound ->
  exists ms es,
    SFadd 53 1024 (S754_finite false mantissa_10000000 (-29)) (S754_finite false mp ep)
      = S754_finite false ms es /\
    es <= 0 /\
    10000000 * 2 ^ (- es) <= Z.pos ms < 100000000 * 2 ^ (- es).
Proof.
  intros Hep Hp. unfold SFadd. cbn [cond_Zopp].
  set (ez := Z.min (-29) ep).
  assert (Hez : -1074 <= ez <= -29) by (unfold ez; lia).
  destruct (shl_align_le mantissa_10000000 (-29) ez ltac:(lia)) as [Ha _].
  destruct (shl_align_le mp ep ez ltac:(unfold ez; lia)) as [Hb _].
  set (a := fst (shl_align mantissa_10000000 (-29) ez)) in *.
  set (b := fst (shl_align mp ep ez)) in *.
  change (Z.pos a + Z.pos b) with (Z.pos (a + b)).
  cbn [binary_normalize]. unfold binary_round.
  (* the sum, in units of 2^ez *)
  set (U := 2 ^ (-26 - ez)).
  assert (HU : 0 < U) by (apply pow2_pos; lia).
  assert (Ha' : Z.pos a = 10000000 * 2 ^ 26 * U).
  { rewrite Ha. unfold U, mantissa_10000000.
    replace (-26 - ez) with (3 + (-29 - ez)) by lia.
    rewrite pow2_split by lia.
    change (2 ^ 3) with 8. change (2 ^ 26) with 67108864. lia. }
  assert (Hb' : Z.pos b <= (Z.pos mantissa_90000000 - 1) * U).
  { rewrite Hb. unfold product_bound in Hp.
    assert (Hs : 0 < 2 ^ (ez + 1074)) by (apply pow2_pos; lia).
    apply (Z.mul_le_mono_pos_r _ _ (2 ^ (ez + 1074)) Hs).
    rewrite <- !Z.mul_assoc. unfold U. rewrite <- !pow2_split by (unfold ez; lia).
    replace (ep - ez + (ez + 1074)) with (ep + 1074) by lia.
    replace (-26 - ez + (ez + 1074)) with 1048 by lia. exact Hp. }
  assert (HS : 10000000 * 2 ^ 26 * U <= Z.pos (a + b)
               <= (100000000 * 2 ^ 26 - 1) * U).
  { rewrite Pos2Z.inj_add. unfold mantissa_90000000 in Hb'.
    change (2 ^ 26) with 67108864 in *. lia. }
  clearbody a b. clear Ha Hb Ha' Hb'.
  set (S := (a + b)%positive) in *.
  pose proof (digits2_pos_bounds S) as Hd.
  set (d := Z.pos (digits2_pos S)) in *.
  assert (Hd0 : 0 < d) by (unfold d; lia).
  assert (Hd_lo : 24 - ez <= d).
  { assert (2 ^ (23 - ez) < 2 ^ d); [|apply pow2_lt_inv in H; lia].
    replace (23 - ez) with (49 + (-26 - ez)) by lia.
    rewrite pow2_split by lia. fold U.
    change (2 ^ 49) with 562949953421312. change (2 ^ 26) with 67108864 in HS.
    nia. }
  assert (Hd_hi : d <= 27 - ez).
  { assert (2 ^ (d - 1) < 2 ^ (27 - ez)); [|apply pow2_lt_inv in H; lia].
    replace (27 - ez) with (53 + (-26 - ez)) by lia.
    rewrite pow2_split by lia. fold U.
    change (2 ^ 53) with 9007199254740992. change (2 ^ 26) with 67108864 in HS.
    nia. }
  assert (Hfexp : fexp 53 1024 (d + ez) = d + ez - 53).
  { unfold fexp, SpecFloat.emin. lia. }
  rewrite Hfexp. rewrite shl_align_ge by lia.
  destruct (binary_round_aux_spec 53 1024 S ez)
    as (m1 & e1 & m2 & e2 & Hr & Ht & ->).
  set (fe := d + ez - 53) in *.
  assert (Hfe : -29 <= fe <= -26) by (unfold fe; lia).
  set (V := 2 ^ (-26 - fe)).
  assert (HV : 0 < V) by (apply pow2_pos; lia).
  assert (HUV : U = V * 2 ^ (fe - ez)).
  { unfold U, V. rewrite <- pow2_split by lia. f_equal. lia. }
  (* after the rounding *)
  assert (Stage1 : e1 = fe /\
    10000000 * 2 ^ 26 * V <= m1 <= (100000000 * 2 ^ 26 - 1) * V).
  { unfold rounded in Hr. cbn [Zdigits2] in Hr. fold d in Hr.
    rewrite Hfexp in Hr. fold fe in Hr.
    destruct Hr as [(Hn & -> & ->) | (Hn & -> & Hm1)].
    - assert (fe = ez) by lia. split; [lia |].
      replace (fe - ez) with 0 in HUV by lia. change (2 ^ 0) with 1 in HUV.
      rewrite Z.mul_1_r in HUV. rewrite <- HUV. exact HS.
    - split; [lia |].
      set (n := fe - ez) in *.
      assert (HP : 0 < 2 ^ n) by (apply pow2_pos; lia).
      set (P := 2 ^ n) in *.
      assert (Hq_lo : 10000000 * 2 ^ 26 * V <= Z.pos S / P).
      { apply Z.div_le_lower_bound; [lia |]. rewrite HUV in HS. lia. }
      assert (Hq_hi : Z.pos S / P <= (100000000 * 2 ^ 26 - 1) * V).
      { apply Z.lt_succ_r. apply Z.div_lt_upper_bound; [lia |].
        rewrite HUV in HS. nia. }
      destruct Hm1 as [-> | [-> Hodd]]; [lia |].
      split; [lia |].
      destruct (Z.eq_dec (Z.pos S / P) ((100000000 * 2 ^ 26 - 1) * V)) as [Heq | Hne];
        [|lia].
      exfalso.
      assert (HSeq : Z.pos S = (100000000 * 2 ^ 26 - 1) * V * P).
      { pose proof (Z.mul_div_le (Z.pos S) P HP). rewrite HUV in HS. nia. }
      assert (HP' : P = 2 * 2 ^ (n - 1)).
      { unfold P. replace n with (1 + (n - 1)) at 1 by lia.
        rewrite pow2_split by lia. reflexivity. }
      rewrite HSeq, HP' in Hodd.
      replace ((100000000 * 2 ^ 26 - 1) * V * (2 * 2 ^ (n - 1)))
        with (((100000000 * 2 ^ 26 - 1) * V * 2) * 2 ^ (n - 1)) in Hodd by ring.
      rewrite Z.div_mul in Hodd by (apply Z.pow_nonzero; lia).
      rewrite Z.odd_mul in Hodd. simpl Z.odd in Hodd.
      rewrite andb_false_r in Hodd. discriminate. }
  destruct Stage1 as (-> & Hm1).
  assert (Hm1pos : 0 < m1) by (change (2 ^ 26) with 67108864 in Hm1; nia).
  (* after the truncation *)
  assert (Stage2 : e2 <= -26 /\
    10000000 * 2 ^ (- e2) <= m2 < 100000000 * 2 ^ (- e2)).
  { assert (HVfe : 2 ^ (- fe) = 2 ^ 26 * V).
    { unfold V. rewrite <- pow2_split by lia. f_equal. lia. }
    unfold truncated in Ht. destruct m1 as [|q|q]; try lia.
    cbn [Zdigits2] in Ht.
    pose proof (digits2_pos_bounds q) as Hdq.
    set (d1 := Z.pos (digits2_pos q)) in *.
    assert (Hd1 : 0 < d1) by (unfold d1; lia).
    assert (Hd1_lo : 24 - fe <= d1).
    { assert (2 ^ (23 - fe) < 2 ^ d1); [|apply pow2_lt_inv in H; lia].
      replace (23 - fe) with (49 + (-26 - fe)) by lia.
      rewrite pow2_split by lia. fold V.
      change (2 ^ 49) with 562949953421312. change (2 ^ 26) with 67108864 in Hm1.
      nia. }
    assert (Hd1_hi : d1 <= 27 - fe).
    { assert (2 ^ (d1 - 1) < 2 ^ (27 - fe)); [|apply pow2_lt_inv in H; lia].
      replace (27 - fe) with (53 + (-26 - fe)) by lia.
      rewrite pow2_split by lia. fold V.
      change (2 ^ 53) with 9007199254740992. change (2 ^ 26) with 67108864 in Hm1.
      nia. }
    assert (Hfexp1 : fexp 53 1024 (d1 + fe) = d1 + fe - 53).
    { unfold fexp, SpecFloat.emin. lia. }
    rewrite Hfexp1 in Ht.
    destruct Ht as [(Hn & -> & ->) | (Hn & -> & ->)].
    - split; [lia |]. rewrite HVfe. change (2 ^ 26) with 67108864 in *. nia.
    - set (n1 := d1 + fe - 53 - fe) in *.
      assert (HP : 0 < 2 ^ n1) by (apply pow2_pos; lia).
      split; [lia |].
      assert (Hsplit : 2 ^ (- fe) = 2 ^ (- (fe + n1)) * 2 ^ n1).
      { rewrite <- pow2_split by lia. f_equal. lia. }
      assert (0 < 2 ^ (- (fe + n1))) by (apply pow2_pos; lia).
      split.
      + apply Z.div_le_lower_bound; [lia |].
        rewrite HVfe in Hsplit. change (2 ^ 26) with 67108864 in *. nia.
      + apply Z.div_lt_upper_bound; [lia |].
        rewrite HVfe in Hsplit. change (2 ^ 26) with 67108864 in *. nia. }
  destruct Stage2 as (He2 & Hm2).
  assert (0 < 2 ^ (- e2)) by (apply pow2_pos; lia).
  destruct m2 as [|ms|ms]; try lia.
  exists ms, e2.
  replace (e2 <=? 1024 - 53) with true by (symmetry; apply Z.leb_le; lia).
  repeat split; try lia.
Qed.
(** An integer below 2^53 is a binary64 value. *)
Lemma of_Z_exact (z : positive) :
  Z.pos z < 2 ^ 53 ->
  exists m e, of_Z (Z.pos z) = S754_finite false m e /\ e <= 0 /\
    Z.pos m = Z.pos z * 2 ^ (- e).
Proof.
  intros Hz. unfold of_Z, binary_normalize, binary_round, prec, emax.
  pose proof (digits2_pos_bounds z) as Hd.
  set (dz := Z.pos (digits2_pos z)) in *.
  assert (Hdz : 0 < dz <= 53).
  { split; [unfold dz; lia |].
    assert (2 ^ (dz - 1) < 2 ^ 53) by lia. apply pow2_lt_inv in H; lia. }
  assert (Hfexp : fexp 53 1024 (dz + 0) = dz - 53).
  { unfold fexp, SpecFloat.emin. lia. }
  rewrite Hfexp.
  destruct (shl_align_le z 0 (dz - 53) ltac:(lia)) as [Hmz Hez].
  destruct (shl_align z 0 (dz - 53)) as [mz ez]. cbn [fst snd] in Hmz, Hez.
  subst ez. replace (0 - (dz - 53)) with (53 - dz) in Hmz by lia.
  assert (Hsplit : 2 ^ 52 = 2 ^ (dz - 1) * 2 ^ (53 - dz)).
  { rewrite <- pow2_split by lia. f_equal. lia. }
  assert (Hsplit' : 2 ^ 53 = 2 ^ dz * 2 ^ (53 - dz)).
  { rewrite <- pow2_split by lia. f_equal. lia. }
  assert (Hp : 0 < 2 ^ (53 - dz)) by (apply pow2_pos; lia).
  assert (Hdm : Z.pos (digits2_pos mz) = 53).
  { apply digits2_pos_unique. change (53 - 1) with 52.
    rewrite Hmz, Hsplit, Hsplit'. split.
    - apply Z.mul_le_mono_nonneg_r; lia.
    - apply Z.mul_lt_mono_pos_r; lia. }
  destruct (binary_round_aux_spec 53 1024 mz (dz - 53))
    as (m1 & e1 & m2 & e2 & Hr & Ht & ->).
  unfold rounded in Hr. cbn [Zdigits2] in Hr. rewrite Hdm in Hr.
  unfold fexp, SpecFloat.emin in Hr.
  destruct Hr as [(_ & -> & ->) | (Hn & _)]; [|lia].
  unfold truncated in Ht. cbn [Zdigits2] in Ht. rewrite Hdm in Ht.
  unfold fexp, SpecFloat.emin in Ht.
  destruct Ht as [(_ & -> & ->) | (Hn & _)]; [|lia].
  exists mz, (dz - 53).
  replace (dz - 53 <=? 1024 - 53) with true by (symmetry; apply Z.leb_le; lia).
  split_and!; [done | lia |].
  rewrite Hmz. f_equal. f_equal. lia.
Qed.

(** [Math.floor(x).toString()] for a value in [10000000, 100000000). *)
Lemma floor_toString (ms : positive) (es : Z) :
  es <= 0 ->
  10000000 * 2 ^ (- es) <= Z.pos ms < 100000000 * 2 ^ (- es) ->
  exists n, 10000000 <= n < 100000000 /\
    toString (floor (S754_finite false ms es)) = Z_toString n.
Proof.
  intros Hes Hms. cbn [floor]. unfold floorZ. cbn [cond_Zopp].
  rewrite Z.shiftl_div_pow2 by lia.
  assert (Hp : 0 < 2 ^ (- es)) by (apply pow2_pos; lia).
  set (n := Z.pos ms / 2 ^ (- es)).
  assert (Hn : 10000000 <= n < 100000000).
  { unfold n. split.
    - apply Z.div_le_lower_bound; lia.
    - apply Z.div_lt_upper_bound; lia. }
  exists n. split; [exact Hn |].
  destruct n as [|z|z]; try lia.
  destruct (of_Z_exact z) as (m & e & -> & He & Hm).
  { change (2 ^ 53) with 9007199254740992. lia. }
  cbn [toString]. unfold floorZ. cbn [cond_Zopp].
  rewrite Z.shiftl_div_pow2 by lia. rewrite Hm.
  rewrite Z.div_mul; [done |]. apply Z.pow_nonzero; lia.
Qed.

(** The number that [generateUniqueId] makes of a value of
    [Math.random()] is an integer of the range. *)
Lemma draw_id_range (r : spec_float) :
  unit_interval r = true ->
  exists n, 10000000 <= n < 100000000 /\ draw_id r = Z_toString n.
Proof.
  intros Hr. unfold draw_id.
  change (of_Z 10000000) with (S754_finite false mantissa_10000000 (-29)).
  change (of_Z 90000000) with (S754_finite false mantissa_90000000 (-26)).
  assert (Hzero :
    toString (floor (add (S754_finite false mantissa_10000000 (-29))
                       (S754_zero false)))
    = Z_toString 10000000) by reflexivity.
  destruct r as [[|] | | | [|] m e]; try discriminate.
  - exists 10000000. split; [lia | exact Hzero].
  - cbn [unit_interval] in Hr. apply andb_true_iff in Hr as [Hb Hlt].
    apply Z.leb_le in Hlt.
    destruct (mul_bound m e Hb Hlt) as [Hp | (mp & ep & Hp & Hep & Hv)];
      unfold mul, prec, emax; rewrite Hp.
    + exists 10000000. split; [lia | exact Hzero].
    + destruct (add_bound mp ep Hep Hv) as (ms & es & Hs & Hes & Hms).
      unfold add, prec, emax. rewrite Hs. by apply floor_toString.
Qed.

Lemma digits_more (fuel : nat) (n : Z) (acc : string) :
  10 <= n ->
  digits (S fuel) n acc = digits fuel (n / 10) (digit (n mod 10) +:+ acc).
Proof.
  intros Hn. cbn [digits].
  by replace (n <? 10) with false by (symmetry; apply Z.ltb_ge; lia).
Qed.

Lemma digits_last (fuel : nat) (n : Z) (acc : string) :
  n < 10 -> digits fuel n acc = digit (n mod 10) +:+ acc.
Proof.
  intros Hn. destruct fuel; cbn [digits]; [done |].
  by replace (n <? 10) with true by (symmetry; apply Z.ltb_lt; lia).
Qed.

Lemma digit_value_char (d : Z) :
  0 <= d <= 9 -> digit_value (digit_char d) = Some d.
Proof.
  intros Hd.
  assert (Hcases : d = 0 \/ d = 1 \/ d = 2 \/ d = 3 \/ d = 4 \/ d = 5 \/
                   d = 6 \/ d = 7 \/ d = 8 \/ d = 9) by lia.
  repeat (destruct Hcases as [-> | Hcases]; [reflexivity |]).
  by subst d.
Qed.

(** The numeral of an integer of the range has eight digits and reads
    back as that integer. *)
Lemma Z_toString_eight (n : Z) :
  10000000 <= n < 100000000 ->
  String.length (Z_toString n) = 8%nat /\ parse_digits (Z_toString n) 0 = Some n.
Proof.
  intros Hn. unfold Z_toString.
  replace (n <? 0) with false by (symmetry; apply Z.ltb_ge; lia).
  assert (Hfuel : (7 <= Z.to_nat (Z.log2 n))%nat).
  { assert (Z.log2 (2 ^ 23) <= Z.log2 n).
    { apply Z.log2_le_mono. change (2 ^ 23) with 8388608. lia. }
    rewrite Z.log2_pow2 in H by lia. lia. }
  destruct (Z.to_nat (Z.log2 n)) as [|[|[|[|[|[|[|fuel]]]]]]]; try lia.
  assert (Hdiv : forall k, 0 < k -> 0 <= (n / k) mod 10 <= 9).
  { intros k Hk. pose proof (Z.mod_pos_bound (n / k) 10). lia. }
  rewrite !digits_more by (Z.div_mod_to_equations; lia).
  rewrite digits_last by (Z.div_mod_to_equations; lia).
  unfold digit.
  assert (Happ : forall c s, String c EmptyString +:+ s = String c s) by reflexivity.
  rewrite !Happ.
  split; [reflexivity |].
  cbn [parse_digits].
  rewrite !digit_value_char by (Z.div_mod_to_equations; lia).
  f_equal. Z.div_mod_to_equations. lia.
Qed.
Lemma parse_digits_all_digits (s : string) (acc n : Z) :
  parse_digits s acc = Some n -> all_digits s = true.
Proof.
  revert acc. induction s as [|c s IH]; intros acc; cbn [parse_digits all_digits].
  - done.
  - destruct (digit_value c); [apply IH | done].
Qed.
End FloatFacts.

(** ** The methods *)

Section StoreFacts.
Import JsMap JsMapFacts.
Implicit Types (db : ReminderDatabase) (fs : FileSystem) (i k : string)
  (m : JsMap.t Reminder) (r : Reminder).

Lemma outcome_db_save msg db fs : outcome_db (save_and_return msg db fs) = db.
Proof. unfold save_and_return. by destruct (saveToFile db fs). Qed.

Lemma save_and_return_allowed msg db fs :
  filename db ∉ denied fs ->
  exists fs', saveToFile db fs = Some fs' /\
    save_and_return msg db fs = Returned msg db fs'.
Proof.
  intros Hw. unfold save_and_return, saveToFile, writeJsonSync.
  rewrite bool_decide_eq_false_2 by done. eauto.
Qed.

Lemma get_modify_eq i f m : get i (modify i f m) = f <$> get i m.
Proof.
  unfold modify. destruct (get i m) eqn:H; simpl; [|done].
  apply get_set_eq.
Qed.

Lemma get_modify_ne i k f m : i <> k -> get k (modify i f m) = get k m.
Proof.
  intros Hne. unfold modify. destruct (get i m); [|done].
  by apply get_set_ne.
Qed.

Lemma keys_modify i f m : keys (modify i f m) = keys m.
Proof.
  unfold modify. destruct (get i m) eqn:H; [|done].
  apply set_has. apply has_get. eauto.
Qed.

Lemma keys_are_ids_set k r m :
  keys_are_ids m -> id r = k -> keys_are_ids (set k r m).
Proof.
  unfold keys_are_ids. intros Hm Hr.
  induction m as [|[k' r'] m IH]; simpl.
  - by constructor.
  - apply Forall_cons in Hm as [Hk Hm].
    destruct (String.eqb_spec k' k) as [->|Hne]; constructor; auto.
Qed.

Lemma keys_are_ids_delete k m : keys_are_ids m -> keys_are_ids (delete k m).
Proof.
  unfold keys_are_ids. intros Hm.
  induction m as [|[k' r'] m IH]; simpl; [constructor |].
  apply Forall_cons in Hm as [Hk Hm].
  destruct (String.eqb k' k); [auto | constructor; auto].
Qed.

Lemma keys_are_ids_get k r m : keys_are_ids m -> get k m = Some r -> id r = k.
Proof.
  intros Hm Hg. apply get_In in Hg.
  unfold keys_are_ids in Hm. rewrite Forall_forall in Hm.
  exact (Hm (k, r) Hg).
Qed.

Lemma keys_are_ids_modify i f m :
  (forall r, id (f r) = id r) -> keys_are_ids m -> keys_are_ids (modify i f m).
Proof.
  intros Hf Hm. unfold modify. destruct (get i m) eqn:Hg; [|done].
  apply keys_are_ids_set; [done |].
  rewrite Hf. by eapply keys_are_ids_get.
Qed.

Lemma get_In_values k r m : get k m = Some r -> In r (values m).
Proof.
  intros Hg%get_In. unfold values. apply in_map_iff.
  exists (k, r). split; [done |]. by apply list_elem_of_In.
Qed.

Lemma In_values_ids r m :
  keys_are_ids m -> NoDup (keys m) -> In r (values m) -> get (id r) m = Some r.
Proof.
  intros Hm Hnd Hin. unfold values in Hin.
  apply in_map_iff in Hin as ([k r'] & <- & Hin). simpl.
  apply list_elem_of_In in Hin.
  unfold keys_are_ids in Hm. rewrite Forall_forall in Hm.
  pose proof (Hm _ Hin) as Hk. simpl in Hk. rewrite Hk. by apply In_get.
Qed.

Lemma generateUniqueId_returns rng db :
  Exists (free_draw db) rng ->
  exists i rng', generateUniqueId rng db = Some (i, rng').
Proof.
  induction 1 as [x rng Hx | x rng _ IH]; simpl.
  - unfold free_draw in Hx. rewrite Hx. eauto.
  - destruct (has (draw_id x) (reminders db)); eauto.
Qed.

Lemma generateUniqueId_spec rng db i rng' :
  generateUniqueId rng db = Some (i, rng') ->
  exists used x, rng = used ++ x :: rng' /\ i = draw_id x /\
    has i (reminders db) = false /\
    Forall (fun y => has (draw_id y) (reminders db) = true) used.
Proof.
  revert i rng'. induction rng as [|x rng IH]; simpl; intros i rng' H.
  - discriminate.
  - destruct (has (draw_id x) (reminders db)) eqn:Hx.
    + destruct (IH _ _ H) as (used & y & -> & -> & Hfree & Hused).
      exists (x :: used), y. split_and!; try done. by constructor.
    + injection H as <- <-. exists [], x. split_and!; try done.
Qed.
End StoreFacts.
Section Claims.
Import JsMap JsMapFacts.
Implicit Types (db : ReminderDatabase) (fs : FileSystem) (i k : string)
  (m : JsMap.t Reminder) (r : Reminder).

(** C1, as the specification has it, fails: what [createReminder]
    returns for the id 55000000 is a sentence that ends in the id, not
    the id. *)
Lemma createReminder_does_not_return_the_id :
  generateUniqueId [one_half] new_db = Some ("55000000"%string, []) /\
  createReminder "buy milk" "2024-01-01 10:00" [one_half] new_db no_files
    = Some (Returned "Reminder created with ID: 55000000" milk_db milk_fs, []) /\
  "Reminder created with ID: 55000000"%string <> "55000000"%string.
Proof. split_and!; [reflexivity | reflexivity | discriminate]. Qed.

(** C1 (amended): when one of the coming random values gives a free id
    and the file may be written, [createReminder] returns the text
    "Reminder created with ID: " followed by the id that
    [generateUniqueId] produced, and that id is the key of the new
    entry. *)
Theorem createReminder_returns_message msg tm rng db fs :
  Exists (free_draw db) rng ->
  filename db ∉ denied fs ->
  exists i rng' db' fs',
    generateUniqueId rng db = Some (i, rng') /\
    createReminder msg tm rng db fs
      = Some (Returned ("Reminder created with ID: " +:+ i) db' fs', rng') /\
    has i (reminders db) = false /\
    keys (reminders db') = keys (reminders db) ++ [i].
Proof.
  intros Hfree Hw.
  destruct (generateUniqueId_returns _ _ Hfree) as (i & rng' & Hgen).
  destruct (generateUniqueId_spec _ _ _ _ Hgen) as (_ & _ & _ & _ & Hnew & _).
  set (db' := with_reminders db
    (set i {| id := i; message := msg; time := tm; completed := false |}
       (reminders db))).
  destruct (save_and_return_allowed (created i) db' fs Hw) as (fs' & _ & Hret).
  exists i, rng', db', fs'. split_and!; try done.
  - unfold createReminder. rewrite Hgen. do 2 f_equal. exact Hret.
  - subst db'. simpl. rewrite keys_set. by rewrite Hnew.
Qed.

Lemma createReminder_returns_message_witness :
  exists i rng' db' fs',
    generateUniqueId [one_half] new_db = Some (i, rng') /\
    createReminder "buy milk" "2024-01-01 10:00" [one_half] new_db no_files
      = Some (Returned ("Reminder created with ID: " +:+ i) db' fs', rng') /\
    has i (reminders new_db) = false /\
    keys (reminders db') = keys (reminders new_db) ++ [i].
Proof.
  apply (createReminder_returns_message "buy milk" "2024-01-01 10:00"
           [one_half] new_db no_files).
  - constructor. reflexivity.
  - apply not_elem_of_empty.
Defined.

(** C2: once [createReminder] has an id, which it has as soon as one of
    the coming random values gives a free one, [getReminder] of that id
    is the reminder with the message and the time as they were given
    and with [completed] false; so it is whether the write that follows
    succeeds or throws. *)
Theorem getReminder_after_createReminder msg tm rng db fs :
  Exists (free_draw db) rng ->
  exists i rng' o,
    generateUniqueId rng db = Some (i, rng') /\
    createReminder msg tm rng db fs = Some (o, rng') /\
    getReminder i (outcome_db o)
      = Some {| id := i; message := msg; time := tm; completed := false |}.
Proof.
  intros Hfree.
  destruct (generateUniqueId_returns _ _ Hfree) as (i & rng' & Hgen).
  unfold createReminder. rewrite Hgen.
  eexists i, rng', _. split_and!; try reflexivity.
  rewrite outcome_db_save. unfold getReminder. simpl. apply get_set_eq.
Qed.

Lemma getReminder_after_createReminder_witness :
  exists i rng' o,
    generateUniqueId [one_half] new_db = Some (i, rng') /\
    createReminder "buy milk" "2024-01-01 10:00" [one_half] new_db no_files
      = Some (o, rng') /\
    getReminder i (outcome_db o)
      = Some {| id := i; message := "buy milk"; time := "2024-01-01 10:00";
                completed := false |}.
Proof.
  apply (getReminder_after_createReminder "buy milk" "2024-01-01 10:00"
           [one_half] new_db no_files).
  constructor. reflexivity.
Defined.

(** C3: whatever the store holds and however many ids were generated
    before, [generateUniqueId] returns as soon as a value of
    [Math.random()] gives a free id, and the id it makes of such values,
    which are binary64 values from 0 up to but not including 1, has
    eight characters, all of them digits, is the numeral of an integer
    from 10000000 to 99999999, and is no key of the store at that
    moment. *)
Theorem generateUniqueId_eight_digits rng db :
  Forall (fun x => Number.unit_interval x = true) rng ->
  Exists (free_draw db) rng ->
  exists i rng',
    generateUniqueId rng db = Some (i, rng') /\
    String.length i = 8%nat /\
    Number.all_digits i = true /\
    (exists n, 10000000 <= n <= 99999999 /\
       Number.parse_digits i 0 = Some n /\ i = Number.Z_toString n) /\
    exists_ i db = false /\
    i ∉ keys (reminders db).
Proof.
  intros Hrng Hfree.
  destruct (generateUniqueId_returns _ _ Hfree) as (i & rng' & Hgen).
  exists i, rng'. split; [exact Hgen |].
  destruct (generateUniqueId_spec _ _ _ _ Hgen)
    as (used & x & -> & -> & Hnew & _).
  apply Forall_app in Hrng as [_ Hx]. apply Forall_cons in Hx as [Hx _].
  destruct (draw_id_range x Hx) as (n & Hn & Hid).
  destruct (Z_toString_eight n Hn) as [Hlen Hparse].
  rewrite Hid in *. split_and!; try done.
  - by eapply parse_digits_all_digits.
  - exists n. split_and!; [lia | lia | done | done].
  - intros Hin%get_In_keys. unfold exists_ in Hnew. congruence.
Qed.

Lemma generateUniqueId_eight_digits_witness :
  exists i rng',
    generateUniqueId [one_half] new_db = Some (i, rng') /\
    String.length i = 8%nat /\
    Number.all_digits i = true /\
    (exists n, 10000000 <= n <= 99999999 /\
       Number.parse_digits i 0 = Some n /\ i = Number.Z_toString n) /\
    exists_ i new_db = false /\
    i ∉ keys (reminders new_db).
Proof.
  apply (generateUniqueId_eight_digits [one_half] new_db).
  - repeat constructor.
  - constructor. reflexivity.
Defined.

(** The methods keep the keys distinct and equal to the ids. *)
Lemma well_formed_new file :
  well_formed {| reminders := empty; filename := file |}.
Proof. split; [apply NoDup_nil_2 | constructor]. Qed.

Lemma well_formed_modify i f db :
  (forall r, id (f r) = id r) -> well_formed db ->
  well_formed (with_reminders db (modify i f (reminders db))).
Proof.
  intros Hf [Hnd Hids]. split; simpl.
  - by rewrite keys_modify.
  - by apply keys_are_ids_modify.
Qed.

Lemma set_get_same k (v : Reminder) m : get k m = Some v -> set k v m = m.
Proof.
  induction m as [|[k' v'] m IH]; simpl; [discriminate |].
  destruct (String.eqb_spec k' k) as [->|Hne].
  - by intros [= ->].
  - intros H. by rewrite IH.
Qed.

Lemma exec_well_formed c rng db fs o rng' :
  well_formed db -> exec c rng db fs = Some (o, rng') ->
  well_formed (outcome_db o).
Proof.
  intros Hwf Hex. pose proof Hwf as [Hnd Hids]. destruct c; simpl in Hex.
  - unfold createReminder in Hex.
    destruct (generateUniqueId rng db) as [[i rng1]|] eqn:Hgen; [|discriminate].
    injection Hex as <- <-. rewrite outcome_db_save. split; simpl.
    + by apply NoDup_keys_set.
    + by apply keys_are_ids_set.
  - injection Hex as <- <-. unfold updateReminder.
    destruct (has i (reminders db)) eqn:Hhas; simpl; [|done].
    destruct (get i (reminders db)) as [r|] eqn:Hget; [|done].
    rewrite outcome_db_save. split; simpl.
    + by apply NoDup_keys_set.
    + apply keys_are_ids_set; [done |].
      transitivity (id r); [|by eapply keys_are_ids_get].
      unfold update_fields. by destruct (truthy msg), (truthy tm).
  - injection Hex as <- <-. unfold removeReminder.
    destruct (has i (reminders db)); simpl; [|done].
    rewrite outcome_db_save. split; simpl.
    + by apply NoDup_keys_delete.
    + by apply keys_are_ids_delete.
  - injection Hex as <- <-. unfold markReminderAsCompleted.
    destruct (has i (reminders db)); simpl; [|done].
    rewrite outcome_db_save. by apply well_formed_modify.
  - injection Hex as <- <-. unfold unmarkReminderAsCompleted.
    destruct (has i (reminders db)); simpl; [|done].
    rewrite outcome_db_save. by apply well_formed_modify.
Qed.

Lemma reachable_well_formed db0 fs0 db fs :
  well_formed db0 -> reachable db0 fs0 db fs -> well_formed db.
Proof.
  intros Hwf. induction 1 as [|db fs c rng rng' ret db' fs' _ IH Hex]; [done |].
  exact (exec_well_formed _ _ _ _ _ _ IH Hex).
Qed.

(** The entry of [i] after its [completed] has been assigned. *)
Lemma completed_assigned b i db :
  well_formed db -> has i (reminders db) = true ->
  let db' := with_reminders db (modify i (set_completed b) (reminders db)) in
  exists r, getReminder i db' = Some r /\ id r = i /\ completed r = b /\
    forall r', In r' (getAllReminders db') -> id r' = i -> r' = r.
Proof.
  intros Hwf Hhas db'.
  assert (Hwf' : well_formed db') by by apply well_formed_modify.
  apply has_get in Hhas as [r0 Hr0].
  exists (set_completed b r0).
  assert (Hget : getReminder i db' = Some (set_completed b r0)).
  { unfold getReminder, db'. simpl. rewrite get_modify_eq. by rewrite Hr0. }
  split_and!; try done.
  - simpl. eapply keys_are_ids_get; [apply Hwf | exact Hr0].
  - intros r' Hin Hid. destruct Hwf' as [Hnd' Hids'].
    pose proof (In_values_ids _ _ Hids' Hnd' Hin) as Hr'.
    rewrite Hid in Hr'. unfold getReminder in Hget. congruence.
Qed.

(** C5: for an id that is in the store, after [markReminderAsCompleted]
    the list of the completed reminders has the reminder of that id and
    the list of the pending ones has no reminder of that id; after
    [unmarkReminderAsCompleted] it is the other way round. *)
Theorem mark_then_unmark i db fs :
  well_formed db ->
  exists_ i db = true ->
  let o1 := markReminderAsCompleted i db fs in
  let o2 := unmarkReminderAsCompleted i (outcome_db o1) (outcome_fs o1) in
  (exists r, getReminder i (outcome_db o1) = Some r /\ id r = i /\
     In r (getAllRemindersMarkedAsCompleted (outcome_db o1))) /\
  (forall r, In r (getAllRemindersNotMarkedAsCompleted (outcome_db o1)) ->
     id r <> i) /\
  (exists r, getReminder i (outcome_db o2) = Some r /\ id r = i /\
     In r (getAllRemindersNotMarkedAsCompleted (outcome_db o2))) /\
  (forall r, In r (getAllRemindersMarkedAsCompleted (outcome_db o2)) ->
     id r <> i).
Proof.
  intros Hwf Hhas o1 o2. unfold exists_ in Hhas.
  assert (Hdb1 : outcome_db o1
    = with_reminders db (modify i (set_completed true) (reminders db))).
  { unfold o1, markReminderAsCompleted. rewrite Hhas. simpl.
    apply outcome_db_save. }
  destruct (completed_assigned true i db Hwf Hhas)
    as (r1 & Hget1 & Hid1 & Hc1 & Huniq1).
  rewrite <- Hdb1 in Hget1, Huniq1.
  assert (Hwf1 : well_formed (outcome_db o1)).
  { rewrite Hdb1. by apply well_formed_modify. }
  assert (Hhas1 : has i (reminders (outcome_db o1)) = true).
  { apply has_get. eauto. }
  assert (Hdb2 : outcome_db o2
    = with_reminders (outcome_db o1)
        (modify i (set_completed false) (reminders (outcome_db o1)))).
  { unfold o2, unmarkReminderAsCompleted. rewrite Hhas1. simpl.
    apply outcome_db_save. }
  destruct (completed_assigned false i (outcome_db o1) Hwf1 Hhas1)
    as (r2 & Hget2 & Hid2 & Hc2 & Huniq2).
  rewrite <- Hdb2 in Hget2, Huniq2.
  unfold getAllRemindersMarkedAsCompleted, getAllRemindersNotMarkedAsCompleted.
  fold (getAllReminders (outcome_db o1)). fold (getAllReminders (outcome_db o2)).
  split_and!.
  - exists r1. split_and!; try done.
    apply filter_In. split; [|done]. by eapply get_In_values.
  - intros r [Hin Hpend]%filter_In Hid.
    rewrite (Huniq1 r Hin Hid) in Hpend. by rewrite Hc1 in Hpend.
  - exists r2. split_and!; try done.
    apply filter_In. split; [|by rewrite Hc2]. by eapply get_In_values.
  - intros r [Hin Hcomp]%filter_In Hid.
    rewrite (Huniq2 r Hin Hid) in Hcomp. by rewrite Hc2 in Hcomp.
Qed.

Lemma mark_then_unmark_witness :
  let o1 := markReminderAsCompleted "55000000" milk_db no_files in
  let o2 := unmarkReminderAsCompleted "55000000" (outcome_db o1) (outcome_fs o1) in
  (exists r, getReminder "55000000" (outcome_db o1) = Some r /\
     id r = "55000000"%string /\
     In r (getAllRemindersMarkedAsCompleted (outcome_db o1))) /\
  (forall r, In r (getAllRemindersNotMarkedAsCompleted (outcome_db o1)) ->
     id r <> "55000000"%string) /\
  (exists r, getReminder "55000000" (outcome_db o2) = Some r /\
     id r = "55000000"%string /\
     In r (getAllRemindersNotMarkedAsCompleted (outcome_db o2))) /\
  (forall r, In r (getAllRemindersMarkedAsCompleted (outcome_db o2)) ->
     id r <> "55000000"%string).
Proof.
  apply (mark_then_unmark "55000000" milk_db no_files).
  - split; [apply NoDup_singleton | by repeat constructor].
  - reflexivity.
Defined.

(** C6: for an id that is in the store, [updateReminder] writes the
    fields that come with a non-empty value and no other: a message that
    is left out or empty leaves the message, a time that is left out or
    empty leaves the time, with both left out the reminder and the whole
    map are as before, and in every case the other reminders, the order
    of the entries, the id and the completed flag are as before. *)
Theorem updateReminder_frame i msg tm db fs r :
  getReminder i db = Some r ->
  let db' := outcome_db (updateReminder i msg tm db fs) in
  exists r',
    getReminder i db' = Some r' /\
    (msg = None \/ msg = Some EmptyString -> message r' = message r) /\
    (forall s, msg = Some s -> s <> EmptyString -> message r' = s) /\
    (tm = None \/ tm = Some EmptyString -> time r' = time r) /\
    (forall s, tm = Some s -> s <> EmptyString -> time r' = s) /\
    id r' = id r /\ completed r' = completed r /\
    (msg = None \/ msg = Some EmptyString ->
     tm = None \/ tm = Some EmptyString -> r' = r /\ db' = db) /\
    (forall k, k <> i -> getReminder k db' = getReminder k db) /\
    keys (reminders db') = keys (reminders db) /\
    filename db' = filename db.
Proof.
  intros Hget db'. unfold getReminder in *.
  assert (Hhas : has i (reminders db) = true) by (apply has_get; eauto).
  assert (Hdb' : db'
    = with_reminders db (set i (update_fields msg tm r) (reminders db))).
  { unfold db', updateReminder. rewrite Hhas, Hget. simpl.
    apply outcome_db_save. }
  rewrite Hdb'. simpl. exists (update_fields msg tm r).
  split_and!.
  - apply get_set_eq.
  - intros [-> | ->]; simpl; unfold update_fields; simpl;
      by destruct (truthy tm).
  - intros s -> Hs. unfold update_fields.
    destruct s as [|c s]; [done |]. simpl. by destruct (truthy tm).
  - intros [-> | ->]; simpl; unfold update_fields; simpl;
      by destruct (truthy msg).
  - intros s -> Hs. unfold update_fields.
    destruct s as [|c s]; [done |]. simpl. by destruct (truthy msg).
  - unfold update_fields. by destruct (truthy msg), (truthy tm).
  - unfold update_fields. by destruct (truthy msg), (truthy tm).
  - intros Hmsg Htm.
    assert (Hsame : update_fields msg tm r = r)
      by (destruct Hmsg as [-> | ->], Htm as [-> | ->]; reflexivity).
    rewrite Hsame. split; [done |].
    rewrite (set_get_same _ _ _ Hget). by destruct db.
  - intros k Hne. by apply get_set_ne.
  - by apply set_has.
  - done.
Qed.

Lemma updateReminder_frame_witness :
  let db' := outcome_db (updateReminder "55000000" None
                           (Some "2030-01-01 00:00"%string) milk_db no_files) in
  exists r',
    getReminder "55000000" db' = Some r' /\
    (@None string = None \/ @None string = Some EmptyString ->
       message r' = message milk) /\
    (forall s, None = Some s -> s <> EmptyString -> message r' = s) /\
    (Some "2030-01-01 00:00"%string = None \/
     Some "2030-01-01 00:00"%string = Some EmptyString -> time r' = time milk) /\
    (forall s, Some "2030-01-01 00:00"%string = Some s -> s <> EmptyString ->
       time r' = s) /\
    id r' = id milk /\ completed r' = completed milk /\
    (@None string = None \/ @None string = Some EmptyString ->
     Some "2030-01-01 00:00"%string = None \/
     Some "2030-01-01 00:00"%string = Some EmptyString ->
       r' = milk /\ db' = milk_db) /\
    (forall k, k <> "55000000"%string ->
       getReminder k db' = getReminder k milk_db) /\
    keys (reminders db') = keys (reminders milk_db) /\
    filename db' = filename milk_db.
Proof.
  apply (updateReminder_frame "55000000" None (Some "2030-01-01 00:00"%string)
           milk_db no_files milk).
  reflexivity.
Defined.

(** C7: for an id that is not in the store, [markReminderAsCompleted],
    [unmarkReminderAsCompleted], [updateReminder] and [removeReminder]
    return the sentence "Reminder <id> not found." and leave the map and
    the disk as they are; and whatever a first [removeReminder] of an id
    did, the id is gone after it and a second one returns that sentence
    and changes nothing. *)
Theorem not_found_is_returned i db fs :
  exists_ i db = false ->
  markReminderAsCompleted i db fs
    = Returned ("Reminder " +:+ i +:+ " not found.") db fs /\
  unmarkReminderAsCompleted i db fs
    = Returned ("Reminder " +:+ i +:+ " not found.") db fs /\
  (forall msg tm, updateReminder i msg tm db fs
    = Returned ("Reminder " +:+ i +:+ " not found.") db fs) /\
  removeReminder i db fs
    = Returned ("Reminder " +:+ i +:+ " not found.") db fs /\
  (forall db0 fs0,
     let o := removeReminder i db0 fs0 in
     getReminder i (outcome_db o) = None /\
     removeReminder i (outcome_db o) (outcome_fs o)
       = Returned ("Reminder " +:+ i +:+ " not found.")
           (outcome_db o) (outcome_fs o)).
Proof.
  unfold exists_. intros Hhas.
  unfold markReminderAsCompleted, unmarkReminderAsCompleted, updateReminder.
  rewrite Hhas. cbv beta iota delta [negb].
  do 3 (split; [reflexivity |]). split.
  - unfold removeReminder. by rewrite Hhas.
  - intros db0 fs0. set (o := removeReminder i db0 fs0).
    assert (Hgone : get i (reminders (outcome_db o)) = None).
    { unfold o, removeReminder.
      destruct (has i (reminders db0)) eqn:H0; simpl.
      - rewrite outcome_db_save. simpl. apply get_delete_eq.
      - by apply has_false_get. }
    split; [exact Hgone |].
    unfold removeReminder at 1. apply has_false_get in Hgone.
    by rewrite Hgone.
Qed.

Lemma not_found_is_returned_witness :
  markReminderAsCompleted "12345678" milk_db no_files
    = Returned "Reminder 12345678 not found." milk_db no_files /\
  removeReminder "12345678" milk_db no_files
    = Returned "Reminder 12345678 not found." milk_db no_files.
Proof.
  destruct (not_found_is_returned "12345678" milk_db no_files eq_refl)
    as (Hmark & _ & _ & Hremove & _).
  exact (conj Hmark Hremove).
Defined.

(** C9: in every state that a run of the methods reaches from an empty
    store, every key is the id of the reminder it maps to (and no key
    is there twice), and whatever method comes next, returning or
    throwing, leaves it so. *)
Theorem keys_are_ids_invariant file fs0 db fs :
  reachable {| reminders := empty; filename := file |} fs0 db fs ->
  keys_are_ids (reminders db) /\
  NoDup (keys (reminders db)) /\
  forall c rng o rng',
    exec c rng db fs = Some (o, rng') ->
    keys_are_ids (reminders (outcome_db o)).
Proof.
  intros Hreach.
  pose proof (reachable_well_formed _ _ _ _ (well_formed_new file) Hreach)
    as Hwf.
  destruct Hwf as [Hnd Hids]. split_and!; try done.
  intros c rng o rng' Hex.
  by destruct (exec_well_formed c rng db fs o rng' (conj Hnd Hids) Hex).
Qed.

Lemma keys_are_ids_invariant_witness :
  keys_are_ids (reminders milk_db) /\
  NoDup (keys (reminders milk_db)) /\
  forall c rng o rng',
    exec c rng milk_db milk_fs = Some (o, rng') ->
    keys_are_ids (reminders (outcome_db o)).
Proof.
  apply (keys_are_ids_invariant default_filename no_files milk_db milk_fs).
  apply (reach_step _ _ new_db no_files
           (Create "buy milk" "2024-01-01 10:00") [one_half] []
           (created "55000000")); [constructor | reflexivity].
Defined.

(** C10: the completed and the pending reminders split the list of all
    of them: each reminder of the store is in one of the two lists and
    not in the other, the two lists hold nothing else, each keeps the
    order of the full list, and none of the three queries changes the
    map or the disk. *)
Theorem completed_pending_partition db fs :
  let all := getAllReminders db in
  let done_ := getAllRemindersMarkedAsCompleted db in
  let pending := getAllRemindersNotMarkedAsCompleted db in
  (forall r, In r all ->
     (In r done_ /\ ~ In r pending) \/ (In r pending /\ ~ In r done_)) /\
  (forall r, In r done_ \/ In r pending -> In r all) /\
  done_ `sublist_of` all /\ pending `sublist_of` all /\
  all ≡ₚ done_ ++ pending /\
  (length done_ + length pending = length all)%nat /\
  (forall q, exists l, exec_query q db fs = Returned l db fs).
Proof.
  intros all done_ pending.
  assert (Hsplit : forall l : list Reminder,
    l ≡ₚ List.filter (fun r => completed r) l
         ++ List.filter (fun r => negb (completed r)) l).
  { induction l as [|r l IH]; simpl; [done |].
    destruct (completed r); simpl.
    - by f_equiv.
    - rewrite <- Permutation_middle. by f_equiv. }
  assert (Hsub : forall (f : Reminder -> bool) l, List.filter f l `sublist_of` l).
  { intros f. induction l as [|r l IH]; simpl; [done |].
    destruct (f r); by constructor. }
  split_and!.
  - intros r Hin. unfold done_, pending, getAllRemindersMarkedAsCompleted,
      getAllRemindersNotMarkedAsCompleted. fold all.
    rewrite !filter_In. destruct (completed r); [left | right];
      (split; [done | intros [_ ?]; discriminate]).
  - unfold done_, pending, getAllRemindersMarkedAsCompleted,
      getAllRemindersNotMarkedAsCompleted. fold all.
    intros r [H | H]; apply filter_In in H; tauto.
  - apply Hsub.
  - apply Hsub.
  - apply Hsplit.
  - rewrite <- length_app. symmetry. apply Permutation_length, Hsplit.
  - intros []; eexists; reflexivity.
Qed.
(** *** The file *)

Lemma Reminder_of_json_of_Reminder r : Reminder_of_json (json_of_Reminder r) = Some r.
Proof. by destruct r. Qed.

Lemma entry_of_json_of_entry kv :
  entry_of_json (json_of_entry kv) = EntryOk (fst kv) (snd kv).
Proof.
  unfold json_of_entry, entry_of_json, entry_of_pair.
  cbn [lookup list_lookup]. by rewrite Reminder_of_json_of_Reminder.
Qed.

Lemma Map_of_items_of_entries (l : list (string * Reminder)) m :
  Map_of_items (map json_of_entry l) m
  = MapOk (fold_left (fun m kv => set (fst kv) (snd kv) m) l m).
Proof.
  revert m. induction l as [|kv l IH]; intros m; [done |].
  cbn [map Map_of_items fold_left].
  rewrite entry_of_json_of_entry. apply IH.
Qed.

Lemma Map_of_items_NoDup items m m' :
  NoDup (keys m) -> Map_of_items items m = MapOk m' -> NoDup (keys m').
Proof.
  revert m. induction items as [|j items IH]; intros m Hnd; simpl.
  - by intros [= <-].
  - destruct (entry_of_json j) as [k r | |]; [| done |].
    + apply IH. by apply NoDup_keys_set.
    + by destruct (Map_of_items items m).
Qed.

Lemma constructor_NoDup file fs db :
  constructor file fs = Some db ->
  NoDup (keys (reminders db)) /\ filename db = file.
Proof.
  unfold constructor, loadFromFile. simpl.
  destruct (existsSync file fs).
  - destruct (readJsonSync file fs) as [data|].
    + destruct (Map_of_json data) as [m| |] eqn:Hm; intros [= <-]; simpl;
        (split; [|done]); try apply NoDup_nil_2.
      destruct data as [| | | [|] | items |]; simpl in Hm;
        try discriminate; try (injection Hm as <-; apply NoDup_nil_2).
      eapply Map_of_items_NoDup; [|exact Hm]. apply NoDup_nil_2.
    + intros [= <-]. split; [apply NoDup_nil_2 | done].
  - intros [= <-]. split; [apply NoDup_nil_2 | done].
Qed.

(** What [saveToFile] wrote is what a new [ReminderDatabase] on the same
    file starts with. *)
Lemma constructor_after_save db fs fs' :
  NoDup (keys (reminders db)) ->
  saveToFile db fs = Some fs' ->
  constructor (filename db) fs' = Some db.
Proof.
  intros Hnd. unfold saveToFile, writeJsonSync.
  destruct (bool_decide (filename db ∈ denied fs)); [done |].
  intros [= <-]. unfold constructor, loadFromFile, existsSync, readJsonSync.
  simpl. rewrite lookup_insert_eq.
  rewrite bool_decide_eq_true_2 by eauto.
  unfold json_of_entries, Map_of_json. rewrite Map_of_items_of_entries.
  fold (from_entries (entries (reminders db))).
  rewrite from_entries_entries by done. by destruct db.
Qed.

Lemma exec_filename c rng db fs o rng' :
  exec c rng db fs = Some (o, rng') -> filename (outcome_db o) = filename db.
Proof.
  destruct c; simpl.
  - unfold createReminder.
    destruct (generateUniqueId rng db) as [[i rng1]|]; [|done].
    intros [= <- <-]. by rewrite outcome_db_save.
  - intros [= <- <-]. unfold updateReminder.
    destruct (has i (reminders db)); simpl; [|done].
    destruct (get i (reminders db)); [|done]. by rewrite outcome_db_save.
  - intros [= <- <-]. unfold removeReminder.
    destruct (has i (reminders db)); simpl; [|done]. by rewrite outcome_db_save.
  - intros [= <- <-]. unfold markReminderAsCompleted.
    destruct (has i (reminders db)); simpl; [|done]. by rewrite outcome_db_save.
  - intros [= <- <-]. unfold unmarkReminderAsCompleted.
    destruct (has i (reminders db)); simpl; [|done]. by rewrite outcome_db_save.
Qed.

(** A method that returns has either changed nothing or saved the map
    it leaves. *)
Lemma exec_returned c rng db fs ret db' fs' rng' :
  exec c rng db fs = Some (Returned ret db' fs', rng') ->
  (db' = db /\ fs' = fs) \/ saveToFile db' fs = Some fs'.
Proof.
  assert (Hsave : forall msg d, save_and_return msg d fs = Returned ret db' fs' ->
    saveToFile db' fs = Some fs').
  { intros msg d. unfold save_and_return.
    destruct (saveToFile d fs) eqn:Hs; [|done]. by intros [= _ <- <-]. }
  destruct c; simpl.
  - unfold createReminder.
    destruct (generateUniqueId rng db) as [[i rng1]|]; [|done].
    intros [= H _]. right. eauto.
  - unfold updateReminder.
    destruct (has i (reminders db)); simpl; [|intros [= _ <- <- _]; by left].
    destruct (get i (reminders db)); [|intros [= _ <- <- _]; by left].
    intros [= H _]. right. eauto.
  - unfold removeReminder.
    destruct (has i (reminders db)); simpl; [|intros [= _ <- <- _]; by left].
    intros [= H _]. right. eauto.
  - unfold markReminderAsCompleted.
    destruct (has i (reminders db)); simpl; [|intros [= _ <- <- _]; by left].
    intros [= H _]. right. eauto.
  - unfold unmarkReminderAsCompleted.
    destruct (has i (reminders db)); simpl; [|intros [= _ <- <- _]; by left].
    intros [= H _]. right. eauto.
Qed.

Lemma exec_NoDup c rng db fs o rng' :
  NoDup (keys (reminders db)) -> exec c rng db fs = Some (o, rng') ->
  NoDup (keys (reminders (outcome_db o))).
Proof.
  intros Hnd. destruct c; simpl.
  - unfold createReminder.
    destruct (generateUniqueId rng db) as [[i rng1]|]; [|done].
    intros [= <- <-]. rewrite outcome_db_save. by apply NoDup_keys_set.
  - intros [= <- <-]. unfold updateReminder.
    destruct (has i (reminders db)); simpl; [|done].
    destruct (get i (reminders db)); [|done].
    rewrite outcome_db_save. by apply NoDup_keys_set.
  - intros [= <- <-]. unfold removeReminder.
    destruct (has i (reminders db)); simpl; [|done].
    rewrite outcome_db_save. by apply NoDup_keys_delete.
  - intros [= <- <-]. unfold markReminderAsCompleted.
    destruct (has i (reminders db)); simpl; [|done].
    rewrite outcome_db_save. simpl. by rewrite keys_modify.
  - intros [= <- <-]. unfold unmarkReminderAsCompleted.
    destruct (has i (reminders db)); simpl; [|done].
    rewrite outcome_db_save. simpl. by rewrite keys_modify.
Qed.

Lemma reachable_persisted file fs0 db0 db fs :
  constructor file fs0 = Some db0 ->
  reachable db0 fs0 db fs ->
  NoDup (keys (reminders db)) /\ filename db = file /\
  constructor file fs = Some db.
Proof.
  intros Hstart.
  induction 1 as [|db fs c rng rng' ret db' fs' _ IH Hex].
  - destruct (constructor_NoDup _ _ _ Hstart). done.
  - destruct IH as (Hnd & Hfile & Hload).
    pose proof (exec_NoDup _ _ _ _ _ _ Hnd Hex) as Hnd'.
    pose proof (exec_filename _ _ _ _ _ _ Hex) as Hfile'.
    simpl in Hnd', Hfile'. rewrite Hfile in Hfile'.
    split_and!; try done.
    destruct (exec_returned _ _ _ _ _ _ _ _ Hex) as [[-> ->] | Hsave]; [done |].
    rewrite <- Hfile'. by eapply constructor_after_save.
Qed.

(** C4: in every state that a run of returning methods reaches from a
    store as its constructor made it, a store constructed anew on the
    same file is the store in memory, with the same reminders in the
    same order in [getAllReminders]; and wherever [saveToFile] writes
    that state, a store constructed on what was written is that state. *)
Theorem persistence_round_trip file fs0 db0 db fs :
  constructor file fs0 = Some db0 ->
  reachable db0 fs0 db fs ->
  (exists db_r, constructor file fs = Some db_r /\ db_r = db /\
     getAllReminders db_r = getAllReminders db) /\
  (forall fs1 fs2, saveToFile db fs1 = Some fs2 ->
     exists db_r, constructor file fs2 = Some db_r /\ db_r = db /\
       getAllReminders db_r = getAllReminders db).
Proof.
  intros Hstart Hreach.
  destruct (reachable_persisted _ _ _ _ _ Hstart Hreach) as (Hnd & Hfile & Hload).
  split; [by exists db |].
  intros fs1 fs2 Hsave. exists db. split_and!; try done.
  rewrite <- Hfile. by eapply constructor_after_save.
Qed.

Lemma persistence_round_trip_witness :
  (exists db_r, constructor default_filename milk_fs = Some db_r /\
     db_r = milk_db /\ getAllReminders db_r = getAllReminders milk_db) /\
  (forall fs1 fs2, saveToFile milk_db fs1 = Some fs2 ->
     exists db_r, constructor default_filename fs2 = Some db_r /\
       db_r = milk_db /\ getAllReminders db_r = getAllReminders milk_db).
Proof.
  apply (persistence_round_trip default_filename no_files new_db milk_db
           milk_fs).
  - reflexivity.
  - apply (reach_step _ _ new_db no_files
             (Create "buy milk" "2024-01-01 10:00") [one_half] []
             (created "55000000")); [constructor | reflexivity].
Defined.
End Claims.
Section DueFacts.
Import Moment.

Lemma isSameOrBefore_day_spec a b :
  isSameOrBefore_day a b = true <->
  exists x y, a = Valid x /\ b = Valid y /\ day x <= day y.
Proof.
  unfold isSameOrBefore_day, isSame_day, isBefore_day.
  destruct a as [|x], b as [|y]; simpl;
    try (split; [discriminate | intros (? & ? & ? & ? & _); discriminate]).
  unfold endOf_day, startOf_day, day, ms_per_day.
  rewrite orb_true_iff, andb_true_iff, !Z.leb_le, Z.ltb_lt.
  split.
  - intros H. exists x, y. split_and!; try done.
    Z.div_mod_to_equations. lia.
  - intros (x' & y' & [= <-] & [= <-] & H).
    Z.div_mod_to_equations. lia.
Qed.

(** C8: when the date that [moment] prints for the instant of the call
    reads back as a moment of that same day, [getAllRemindersDueByToday]
    returns, in the order of the store, the reminders whose time
    [moment] reads as a valid moment of that day or of a day before; a
    reminder whose time gives an invalid moment is left out. *)
Theorem due_by_today (moment : string -> Moment.t) (format_today : Z -> string)
  now db :
  (exists t, moment (format_today now) = Valid t /\ day t = day now) ->
  let due := getAllRemindersDueByToday moment format_today now db in
  (forall r, In r due <->
     In r (getAllReminders db) /\
     exists t, moment (time r) = Valid t /\ day t <= day now) /\
  (forall r, moment (time r) = Invalid -> ~ In r due) /\
  due `sublist_of` getAllReminders db.
Proof.
  intros (t0 & Ht0 & Hday) due.
  assert (Hin : forall r, In r due <->
     In r (getAllReminders db) /\
     exists t, moment (time r) = Valid t /\ day t <= day now).
  { intros r. unfold due, getAllRemindersDueByToday, getAllReminders.
    rewrite filter_In, isSameOrBefore_day_spec, Ht0.
    split.
    - intros (Hr & x & y & Hx & [= <-] & Hle). split; [done |].
      exists x. split; [done | lia].
    - intros (Hr & x & Hx & Hle). split; [done |].
      exists x, t0. split_and!; try done. lia. }
  split_and!; [exact Hin | |].
  - intros r Hinv [_ (t & Ht & _)]%Hin. congruence.
  - unfold due, getAllRemindersDueByToday, getAllReminders.
    generalize (JsMap.values (reminders db)).
    induction l as [|r l IH]; simpl; [done |].
    destruct (isSameOrBefore_day _ _); by constructor.
Qed.

Lemma due_by_today_witness :
  getAllRemindersDueByToday of_documented format_YYYY_MM_DD
    noon_2024_01_02 two_days_db = [yesterday_reminder] /\
  ((forall r,
      In r (getAllRemindersDueByToday of_documented format_YYYY_MM_DD
              noon_2024_01_02 two_days_db) <->
      In r (getAllReminders two_days_db) /\
      exists t, of_documented (time r) = Valid t /\
        day t <= day noon_2024_01_02) /\
   (forall r, of_documented (time r) = Invalid ->
      ~ In r (getAllRemindersDueByToday of_documented format_YYYY_MM_DD
                noon_2024_01_02 two_days_db)) /\
   getAllRemindersDueByToday of_documented format_YYYY_MM_DD
     noon_2024_01_02 two_days_db  `sublist_of` getAllReminders two_days_db).
Proof.
  split; [reflexivity |].
  apply (due_by_today of_documented format_YYYY_MM_DD noon_2024_01_02
           two_days_db).
  exists 1704153600000. split; reflexivity.
Defined.
End DueFacts.

(** ** More about the methods *)

Section MoreStoreFacts.
Import JsMap JsMapFacts.
Implicit Types (db : ReminderDatabase) (fs : FileSystem) (i k : string)
  (m : JsMap.t Reminder) (r : Reminder).

Lemma set_set k (v w : Reminder) m : set k v (set k w m) = set k v m.
Proof.
  induction m as [|[k' v'] m IH]; simpl.
  - by rewrite String.eqb_refl.
  - destruct (String.eqb k' k) eqn:Hk; simpl; rewrite Hk; [done |].
    by rewrite IH.
Qed.

Lemma modify_modify i (f g : Reminder -> Reminder) m :
  modify i g (modify i f m) = modify i (fun r => g (f r)) m.
Proof.
  unfold modify at 2 3. destruct (get i m) as [r|] eqn:Hget.
  - unfold modify. rewrite get_set_eq. apply set_set.
  - unfold modify. by rewrite Hget.
Qed.

Lemma modify_same i (f : Reminder -> Reminder) m r :
  get i m = Some r -> f r = r -> modify i f m = m.
Proof.
  intros Hget Hf. unfold modify. rewrite Hget, Hf. by apply set_get_same.
Qed.

Lemma length_delete i m r :
  NoDup (keys m) -> get i m = Some r ->
  S (length (delete i m)) = length m.
Proof.
  induction m as [|[k' v'] m IH]; simpl; [discriminate |].
  intros Hnd. apply NoDup_cons in Hnd as [Hk Hnd].
  destruct (String.eqb_spec k' i) as [->|Hne].
  - intros _. rewrite delete_absent; [done |].
    destruct (has i m) eqn:Hhas; [|done].
    apply get_In_keys in Hhas. done.
  - intros Hget. simpl. by rewrite IH.
Qed.

Lemma with_reminders_same db : with_reminders db (reminders db) = db.
Proof. by destruct db. Qed.

(** X1: [createReminder] puts the new reminder behind all the others:
    the list of all reminders is the old one followed by the new
    reminder, the other ids give what they gave, and the new id
    exists. *)
Theorem createReminder_appends msg tm rng db fs :
  Exists (free_draw db) rng ->
  exists i rng' o,
    createReminder msg tm rng db fs = Some (o, rng') /\
    getAllReminders (outcome_db o)
      = getAllReminders db
        ++ [{| id := i; message := msg; time := tm; completed := false |}] /\
    (forall k, k <> i ->
       getReminder k (outcome_db o) = getReminder k db) /\
    exists_ i db = false /\
    exists_ i (outcome_db o) = true.
Proof.
  intros Hfree.
  destruct (generateUniqueId_returns _ _ Hfree) as (i & rng' & Hgen).
  destruct (generateUniqueId_spec _ _ _ _ Hgen) as (_ & _ & _ & _ & Hnew & _).
  unfold createReminder. rewrite Hgen.
  eexists i, rng', _. split; [reflexivity |].
  rewrite outcome_db_save. unfold getAllReminders, getReminder, exists_.
  cbn [reminders with_reminders]. split_and!.
  - rewrite set_fresh by done. unfold values. by rewrite map_app.
  - intros k Hk. by apply get_set_ne.
  - done.
  - apply has_get. eexists. apply get_set_eq.
Qed.

Lemma createReminder_appends_witness :
  exists i rng' o,
    createReminder "feed cat" "2024-02-02 08:00" [S754_zero false] milk_db
      milk_fs = Some (o, rng') /\
    getAllReminders (outcome_db o)
      = getAllReminders milk_db
        ++ [{| id := i; message := "feed cat"; time := "2024-02-02 08:00";
               completed := false |}] /\
    (forall k, k <> i ->
       getReminder k (outcome_db o) = getReminder k milk_db) /\
    exists_ i milk_db = false /\
    exists_ i (outcome_db o) = true.
Proof.
  apply (createReminder_appends "feed cat" "2024-02-02 08:00"
           [S754_zero false] milk_db milk_fs).
  constructor. reflexivity.
Defined.

(** X2: [removeReminder] of an id that is in the store takes out that
    one reminder: the list of all reminders is one shorter and keeps the
    order of the others, every other id gives what it gave, and when the
    file may be written the method returns "Reminder <id> deleted." and a
    store constructed on the file is the store without the reminder. *)
Theorem removeReminder_removes_one i db fs r :
  NoDup (keys (reminders db)) ->
  getReminder i db = Some r ->
  let o := removeReminder i db fs in
  exists_ i (outcome_db o) = false /\
  (forall k, k <> i -> getReminder k (outcome_db o) = getReminder k db) /\
  getAllReminders (outcome_db o) `sublist_of` getAllReminders db /\
  S (length (getAllReminders (outcome_db o))) = length (getAllReminders db) /\
  (filename db ∉ denied fs ->
     exists fs', o = Returned ("Reminder " +:+ i +:+ " deleted.")
                       (outcome_db o) fs' /\
       constructor (filename db) fs' = Some (outcome_db o)).
Proof.
  intros Hnd Hget o. unfold getReminder in Hget.
  assert (Hhas : has i (reminders db) = true) by (apply has_get; eauto).
  assert (Ho : o = save_and_return ("Reminder " +:+ i +:+ " deleted.")
                     (with_reminders db (delete i (reminders db))) fs).
  { unfold o, removeReminder. by rewrite Hhas. }
  assert (Hdb : outcome_db o = with_reminders db (delete i (reminders db))).
  { rewrite Ho. apply outcome_db_save. }
  rewrite Hdb. unfold exists_, getReminder, getAllReminders.
  cbn [reminders with_reminders]. split_and!.
  - apply has_false_get, get_delete_eq.
  - intros k Hk. by apply get_delete_ne.
  - unfold values. apply (fmap_sublist snd), delete_sublist.
  - unfold values. rewrite !length_map. by eapply length_delete.
  - intros Hw.
    destruct (save_and_return_allowed ("Reminder " +:+ i +:+ " deleted.")
                (with_reminders db (delete i (reminders db))) fs Hw)
      as (fs' & Hsave & Hret).
    exists fs'. split; [by rewrite Ho |].
    apply (constructor_after_save
             (with_reminders db (delete i (reminders db))) fs fs'); [|done].
    by apply NoDup_keys_delete.
Qed.

Lemma removeReminder_removes_one_witness :
  let o := removeReminder "10000001" two_days_db no_files in
  exists_ "10000001" (outcome_db o) = false /\
  (forall k, k <> "10000001"%string ->
     getReminder k (outcome_db o) = getReminder k two_days_db) /\
  getAllReminders (outcome_db o) `sublist_of` getAllReminders two_days_db /\
  S (length (getAllReminders (outcome_db o)))
    = length (getAllReminders two_days_db) /\
  (filename two_days_db ∉ denied no_files ->
     exists fs', o = Returned ("Reminder " +:+ "10000001" +:+ " deleted.")
                       (outcome_db o) fs' /\
       constructor (filename two_days_db) fs' = Some (outcome_db o)).
Proof.
  apply (removeReminder_removes_one "10000001" two_days_db no_files
           yesterday_reminder).
  - apply NoDup_cons. split; [|apply NoDup_singleton].
    intros H%list_elem_of_singleton. discriminate.
  - reflexivity.
Defined.
Lemma assign_completed_db b i db fs :
  has i (reminders db) = true ->
  outcome_db (assign_completed b i db fs)
  = with_reminders db (modify i (set_completed b) (reminders db)).
Proof.
  intros Hhas.
  destruct b; unfold assign_completed, markReminderAsCompleted,
    unmarkReminderAsCompleted; rewrite Hhas; apply outcome_db_save.
Qed.

(** X3: marking and unmarking write the flag of the one reminder and
    nothing else: its id, message and time, the other reminders and
    the order stay, a reminder that has the flag already leaves the
    store as it is, and doing it twice is doing it once. *)
Theorem assign_completed_frame b i db fs r :
  getReminder i db = Some r ->
  let o := assign_completed b i db fs in
  getReminder i (outcome_db o)
    = Some {| id := id r; message := message r; time := time r;
              completed := b |} /\
  (forall k, k <> i -> getReminder k (outcome_db o) = getReminder k db) /\
  keys (reminders (outcome_db o)) = keys (reminders db) /\
  (completed r = b -> outcome_db o = db) /\
  outcome_db (assign_completed b i (outcome_db o) (outcome_fs o))
    = outcome_db o.
Proof.
  intros Hget o. unfold getReminder in *.
  assert (Hhas : has i (reminders db) = true) by (apply has_get; eauto).
  assert (Hdb : outcome_db o
    = with_reminders db (modify i (set_completed b) (reminders db)))
    by by apply assign_completed_db.
  assert (Hget' : get i (reminders (outcome_db o)) = Some (set_completed b r)).
  { rewrite Hdb. cbn [reminders with_reminders].
    rewrite get_modify_eq. by rewrite Hget. }
  split_and!.
  - exact Hget'.
  - intros k Hk. rewrite Hdb. by apply get_modify_ne.
  - rewrite Hdb. apply keys_modify.
  - intros Hb. rewrite Hdb.
    rewrite (modify_same i (set_completed b) _ r Hget).
    + apply with_reminders_same.
    + destruct r. simpl in Hb. by subst b.
  - rewrite assign_completed_db by (apply has_get; eauto).
    rewrite (modify_same i (set_completed b) _ _ Hget') by done.
    apply with_reminders_same.
Qed.

Lemma assign_completed_frame_witness :
  let o := assign_completed true "55000000" milk_db milk_fs in
  getReminder "55000000" (outcome_db o)
    = Some {| id := id milk; message := message milk; time := time milk;
              completed := true |} /\
  (forall k, k <> "55000000"%string ->
     getReminder k (outcome_db o) = getReminder k milk_db) /\
  keys (reminders (outcome_db o)) = keys (reminders milk_db) /\
  (completed milk = true -> outcome_db o = milk_db) /\
  outcome_db (assign_completed true "55000000" (outcome_db o) (outcome_fs o))
    = outcome_db o.
Proof.
  apply (assign_completed_frame true "55000000" milk_db milk_fs milk).
  reflexivity.
Defined.

(** X4: setting the flag of a reminder to the other value and back
    gives the store as it was: [unmarkReminderAsCompleted] undoes
    [markReminderAsCompleted] on a pending reminder, and the other way
    round on a completed one. *)
Theorem assign_completed_round_trip i db fs r :
  getReminder i db = Some r ->
  let o1 := assign_completed (negb (completed r)) i db fs in
  let o2 := assign_completed (completed r) i (outcome_db o1) (outcome_fs o1) in
  outcome_db o2 = db.
Proof.
  intros Hget o1 o2. unfold getReminder in Hget.
  assert (Hhas : has i (reminders db) = true) by (apply has_get; eauto).
  assert (Hdb1 : outcome_db o1
    = with_reminders db
        (modify i (set_completed (negb (completed r))) (reminders db)))
    by by apply assign_completed_db.
  assert (Hhas1 : has i (reminders (outcome_db o1)) = true).
  { rewrite Hdb1. apply has_get. eexists. cbn [reminders with_reminders].
    rewrite get_modify_eq. by rewrite Hget. }
  unfold o2. rewrite assign_completed_db by done.
  rewrite Hdb1. cbn [reminders with_reminders]. rewrite modify_modify.
  rewrite (modify_same i
             (fun r0 => set_completed (completed r)
                          (set_completed (negb (completed r)) r0)) _ r Hget)
    by by destruct r.
  unfold with_reminders. by destruct db.
Qed.

Lemma assign_completed_round_trip_witness :
  let o1 := assign_completed (negb (completed milk)) "55000000" milk_db
              milk_fs in
  let o2 := assign_completed (completed milk) "55000000" (outcome_db o1)
              (outcome_fs o1) in
  outcome_db o2 = milk_db.
Proof.
  apply (assign_completed_round_trip "55000000" milk_db milk_fs milk).
  reflexivity.
Defined.

(** What a method does, in two cases: it returns at once and has
    changed nothing, or it has changed the map and ends in
    [saveToFile]. *)
Lemma exec_shape c rng db fs o rng' :
  exec c rng db fs = Some (o, rng') ->
  (exists ret, o = Returned ret db fs /\ rng' = rng) \/
  (exists msg db', o = save_and_return msg db' fs /\
     filename db' = filename db).
Proof.
  destruct c; simpl.
  - unfold createReminder.
    destruct (generateUniqueId rng db) as [[i rng1]|]; [|done].
    intros [= <- <-]. right. by eexists _, _.
  - intros [= <- <-]. unfold updateReminder.
    destruct (has i (reminders db)); simpl; [|left; by eexists].
    destruct (get i (reminders db)); [|left; by eexists].
    right. by eexists _, _.
  - intros [= <- <-]. unfold removeReminder.
    destruct (has i (reminders db)); simpl; [|left; by eexists].
    right. by eexists _, _.
  - intros [= <- <-]. unfold markReminderAsCompleted.
    destruct (has i (reminders db)); simpl; [|left; by eexists].
    right. by eexists _, _.
  - intros [= <- <-]. unfold unmarkReminderAsCompleted.
    destruct (has i (reminders db)); simpl; [|left; by eexists].
    right. by eexists _, _.
Qed.

Lemma save_and_return_denied msg db fs :
  filename db ∈ denied fs -> save_and_return msg db fs = Raised db fs.
Proof.
  intros Hd. unfold save_and_return, saveToFile, writeJsonSync.
  by rewrite bool_decide_eq_true_2.
Qed.

(** X5: when the file may not be written, no method changes the disk,
    a method that returns has found nothing and changed nothing, and
    [createReminder] throws with the new reminder already in the map:
    the map is changed before the write is tried. *)
Theorem denied_write_raises c rng db fs o rng' :
  filename db ∈ denied fs ->
  exec c rng db fs = Some (o, rng') ->
  outcome_fs o = fs /\
  (forall ret db' fs', o = Returned ret db' fs' -> db' = db /\ rng' = rng) /\
  (forall msg tm, c = Create msg tm ->
     exists db', o = Raised db' fs /\
       length (getAllReminders db') = S (length (getAllReminders db))).
Proof.
  intros Hd Hex. split_and!.
  - destruct (exec_shape _ _ _ _ _ _ Hex)
      as [(ret & -> & _) | (msg & db' & -> & Hfile)]; [done |].
    rewrite save_and_return_denied by by rewrite Hfile. done.
  - intros ret db' fs' ->.
    destruct (exec_shape _ _ _ _ _ _ Hex)
      as [(ret' & [= _ <- _] & ->) | (msg & db1 & Hret & Hfile)]; [done |].
    rewrite save_and_return_denied in Hret by by rewrite Hfile. done.
  - intros msg tm ->. simpl in Hex. unfold createReminder in Hex.
    destruct (generateUniqueId rng db) as [[i rng1]|] eqn:Hgen; [|done].
    destruct (generateUniqueId_spec _ _ _ _ Hgen)
      as (_ & _ & _ & _ & Hnew & _).
    injection Hex as <- <-.
    rewrite save_and_return_denied by done.
    eexists. split; [reflexivity |].
    unfold getAllReminders, values. cbn [reminders with_reminders].
    rewrite set_fresh by done. rewrite !length_map, length_app. simpl. lia.
Qed.

Lemma denied_write_raises_witness :
  outcome_fs (Raised (A := string) milk_db locked_fs) = locked_fs /\
  (forall ret db' fs',
     Raised (A := string) milk_db locked_fs = Returned ret db' fs' ->
     db' = new_db /\ @nil spec_float = [one_half]) /\
  (forall msg tm, Create "buy milk" "2024-01-01 10:00" = Create msg tm ->
     exists db', Raised (A := string) milk_db locked_fs = Raised db' locked_fs /\
       length (getAllReminders db') = S (length (getAllReminders new_db))).
Proof.
  apply (denied_write_raises (Create "buy milk" "2024-01-01 10:00")
           [one_half] new_db locked_fs (Raised milk_db locked_fs) []).
  - change (default_filename ∈ ({[default_filename]} : gset string)).
    apply elem_of_singleton_2. reflexivity.
  - reflexivity.
Defined.
(** X6: a method touches no file but the one of the store: the other
    paths hold what they held, the paths that may not be written are
    the same, and the store keeps its file name. *)
Theorem only_own_file c rng db fs o rng' :
  exec c rng db fs = Some (o, rng') ->
  denied (outcome_fs o) = denied fs /\
  (forall path, path <> filename db ->
     files (outcome_fs o) !! path = files fs !! path) /\
  filename (outcome_db o) = filename db.
Proof.
  intros Hex. pose proof (exec_filename _ _ _ _ _ _ Hex) as Hfile.
  destruct (exec_shape _ _ _ _ _ _ Hex)
    as [(ret & -> & _) | (msg & db' & -> & Hfile')]; [done |].
  unfold save_and_return, saveToFile, writeJsonSync in *.
  destruct (bool_decide (filename db' ∈ denied fs)); [done |].
  split_and!; try done. simpl. intros path Hpath.
  apply lookup_insert_ne. congruence.
Qed.

Lemma only_own_file_witness :
  let o := markReminderAsCompleted "55000000" milk_db milk_fs in
  denied (outcome_fs o) = denied milk_fs /\
  (forall path, path <> filename milk_db ->
     files (outcome_fs o) !! path = files milk_fs !! path) /\
  filename (outcome_db o) = filename milk_db.
Proof.
  apply (only_own_file (MarkCompleted "55000000") [] milk_db milk_fs
           (markReminderAsCompleted "55000000" milk_db milk_fs) []).
  reflexivity.
Defined.

Lemma has_keys k (m m' : JsMap.t Reminder) :
  keys m = keys m' -> has k m = has k m'.
Proof.
  intros Hk. destruct (has k m) eqn:H; symmetry.
  - apply get_In_keys. rewrite <- Hk. by apply get_In_keys.
  - destruct (has k m') eqn:H'; [|done].
    apply get_In_keys in H'. rewrite <- Hk in H'.
    apply get_In_keys in H'. congruence.
Qed.

Lemma updateReminder_keys i msg tm db fs :
  keys (reminders (outcome_db (updateReminder i msg tm db fs)))
  = keys (reminders db).
Proof.
  unfold updateReminder. destruct (has i (reminders db)) eqn:Hhas; [|done].
  simpl. destruct (get i (reminders db)); [|done].
  rewrite outcome_db_save. by apply set_has.
Qed.

Lemma assign_completed_keys b i db fs :
  keys (reminders (outcome_db (assign_completed b i db fs)))
  = keys (reminders db).
Proof.
  destruct (has i (reminders db)) eqn:Hhas.
  - rewrite assign_completed_db by done. apply keys_modify.
  - destruct b; unfold assign_completed, markReminderAsCompleted,
      unmarkReminderAsCompleted; by rewrite Hhas.
Qed.

(** X7: [updateReminder], [markReminderAsCompleted] and
    [unmarkReminderAsCompleted] neither add nor remove a reminder,
    whatever their arguments: the ids of the store and their order are
    the same afterwards, so [exists] answers the same for every id and
    the list of all reminders has the same length. *)
Theorem same_ids_after_update_and_marks i msg tm db fs :
  let after_update := outcome_db (updateReminder i msg tm db fs) in
  let after_mark := outcome_db (markReminderAsCompleted i db fs) in
  let after_unmark := outcome_db (unmarkReminderAsCompleted i db fs) in
  (keys (reminders after_update) = keys (reminders db) /\
   keys (reminders after_mark) = keys (reminders db) /\
   keys (reminders after_unmark) = keys (reminders db)) /\
  (forall k, exists_ k after_update = exists_ k db /\
             exists_ k after_mark = exists_ k db /\
             exists_ k after_unmark = exists_ k db) /\
  (length (getAllReminders after_update) = length (getAllReminders db) /\
   length (getAllReminders after_mark) = length (getAllReminders db) /\
   length (getAllReminders after_unmark) = length (getAllReminders db)).
Proof.
  intros after_update after_mark after_unmark.
  assert (Hu : keys (reminders after_update) = keys (reminders db))
    by apply updateReminder_keys.
  assert (Hm : keys (reminders after_mark) = keys (reminders db))
    by apply (assign_completed_keys true).
  assert (Hn : keys (reminders after_unmark) = keys (reminders db))
    by apply (assign_completed_keys false).
  split_and!; try done.
  - intros k. unfold exists_. split_and!; by apply has_keys.
  - unfold getAllReminders, values. rewrite !length_map.
    rewrite <- (length_map fst), <- (length_map fst (reminders db)).
    by f_equal.
  - unfold getAllReminders, values. rewrite !length_map.
    rewrite <- (length_map fst), <- (length_map fst (reminders db)).
    by f_equal.
  - unfold getAllReminders, values. rewrite !length_map.
    rewrite <- (length_map fst), <- (length_map fst (reminders db)).
    by f_equal.
Qed.

Lemma Forall_keys_delete (P : string -> Prop) i (m : JsMap.t Reminder) :
  Forall P (keys m) -> Forall P (keys (delete i m)).
Proof.
  induction m as [|[k' v'] m IH]; simpl; [done |].
  intros [Hk Hm]%Forall_cons.
  destruct (String.eqb k' i); [auto |]. simpl. constructor; auto.
Qed.

(** X8: the ids of the store stay ids of eight digits: when they all
    are and the values of [Math.random()] are in range, they all are
    after any method, and the values left over are in range. *)
Theorem exec_keeps_eight_digits c rng db fs o rng' :
  Forall (fun x => Number.unit_interval x = true) rng ->
  Forall eight_digits (keys (reminders db)) ->
  exec c rng db fs = Some (o, rng') ->
  Forall eight_digits (keys (reminders (outcome_db o))) /\
  Forall (fun x => Number.unit_interval x = true) rng'.
Proof.
  intros Hrng Hkeys Hex. destruct c; simpl in Hex.
  - unfold createReminder in Hex.
    destruct (generateUniqueId rng db) as [[i rng1]|] eqn:Hgen; [|done].
    injection Hex as <- <-.
    destruct (generateUniqueId_spec _ _ _ _ Hgen)
      as (used & x & -> & -> & Hnew & _).
    apply Forall_app in Hrng as [_ Hx]. apply Forall_cons in Hx as [Hx Hrest].
    split; [|done].
    rewrite outcome_db_save. cbn [reminders with_reminders].
    rewrite keys_set, Hnew. apply Forall_app. split; [done |].
    constructor; [|constructor].
    destruct (draw_id_range x Hx) as (n & Hn & ->).
    destruct (Z_toString_eight n Hn) as [Hlen Hparse].
    split; [done |]. by eapply parse_digits_all_digits.
  - injection Hex as <- <-. by rewrite updateReminder_keys.
  - injection Hex as <- <-. split; [|done]. unfold removeReminder.
    destruct (has i (reminders db)); simpl; [|done].
    rewrite outcome_db_save. by apply Forall_keys_delete.
  - injection Hex as <- <-.
    by rewrite (assign_completed_keys true).
  - injection Hex as <- <-.
    by rewrite (assign_completed_keys false).
Qed.

Lemma exec_keeps_eight_digits_witness :
  Forall eight_digits (keys (reminders milk_db)) /\
  Forall (fun x => Number.unit_interval x = true) [].
Proof.
  apply (exec_keeps_eight_digits (Create "buy milk" "2024-01-01 10:00")
           [one_half] new_db no_files
           (Returned (created "55000000") milk_db milk_fs) []).
  - repeat constructor.
  - constructor.
  - reflexivity.
Defined.

Lemma Map_of_items_primitive items m :
  Exists (fun j => primitive j = true) items ->
  Map_of_items items m = MapTypeError.
Proof.
  intros Hex. revert m.
  induction Hex as [j items Hj | j items _ IH]; intros m; simpl.
  - by destruct j.
  - destruct (entry_of_json j); [apply IH | done | by rewrite IH].
Qed.

(** X9: a file that cannot be loaded gives an empty store and no
    exception: so it is for a file that is no JSON, for JSON that is a
    boolean, a number, an object or a non-empty string, and for an
    array with an item that is no object, whatever the other items
    are. *)
Theorem constructor_falls_back file fs :
  files fs !! file = Some NotJson \/
  (exists data, files fs !! file = Some (Json data) /\
     (rejected_by_Map data = true \/
      exists items, data = JArray items /\
        Exists (fun j => primitive j = true) items)) ->
  constructor file fs = Some {| reminders := empty; filename := file |}.
Proof.
  intros Hbad. unfold constructor, loadFromFile, existsSync, readJsonSync.
  cbn [filename].
  destruct Hbad as [-> | (data & -> & Hdata)];
    rewrite bool_decide_eq_true_2 by eauto; [done |].
  destruct Hdata as [Hni | (items & -> & Hitems)].
  - by destruct data as [| | | [|] | |].
  - unfold Map_of_json. by rewrite Map_of_items_primitive.
Qed.

Lemma constructor_falls_back_witness :
  constructor default_filename
    {| files := {[ default_filename :=
                     Json (JArray [json_of_entry ("55000000"%string, milk);
                                   JNull]) ]};
       denied := ∅ |}
  = Some {| reminders := empty; filename := default_filename |}.
Proof.
  apply constructor_falls_back. right.
  exists (JArray [json_of_entry ("55000000"%string, milk); JNull]).
  split; [reflexivity |]. right. eexists. split; [reflexivity |].
  apply Exists_cons_tl. apply Exists_cons_hd. reflexivity.
Defined.

Lemma ids_are_keys (m : JsMap.t Reminder) :
  keys_are_ids m -> map id (values m) = keys m.
Proof.
  unfold keys_are_ids, values, keys. induction 1 as [|[k r] m Hk _ IH]; simpl.
  - done.
  - simpl in Hk. by rewrite Hk, IH.
Qed.

(** X10: in a store whose keys are distinct and are the ids of their
    reminders, a reminder is listed by [getAllReminders] exactly when
    [getReminder] of its id gives it, an id exists exactly when a
    listed reminder has it, and no two listed reminders have the same
    id. *)
Theorem listed_iff_retrievable db :
  well_formed db ->
  (forall r, In r (getAllReminders db) <-> getReminder (id r) db = Some r) /\
  (forall i, exists_ i db = true <->
     exists r, In r (getAllReminders db) /\ id r = i) /\
  NoDup (map id (getAllReminders db)).
Proof.
  intros [Hnd Hids]. unfold getAllReminders, getReminder, exists_.
  split_and!.
  - intros r. split; [by apply In_values_ids | apply get_In_values].
  - intros i. rewrite has_get. split.
    + intros [r Hr]. exists r. split; [by eapply get_In_values |].
      by eapply keys_are_ids_get.
    + intros (r & Hin & <-). exists r. by apply In_values_ids.
  - by rewrite ids_are_keys.
Qed.

Lemma listed_iff_retrievable_witness :
  (forall r, In r (getAllReminders two_days_db) <->
     getReminder (id r) two_days_db = Some r) /\
  (forall i, exists_ i two_days_db = true <->
     exists r, In r (getAllReminders two_days_db) /\ id r = i) /\
  NoDup (map id (getAllReminders two_days_db)).
Proof.
  apply (listed_iff_retrievable two_days_db). split.
  - apply NoDup_cons. split; [|apply NoDup_singleton].
    intros H%list_elem_of_singleton. discriminate.
  - by repeat constructor.
Defined.
(** What is left of a later argument and an earlier one of
    [updateReminder]: the later one if it is not blank. *)
Lemma update_fields_twice msg1 tm1 msg2 tm2 r :
  update_fields msg2 tm2 (update_fields msg1 tm1 r)
  = update_fields (match truthy msg2 with Some _ => msg2 | None => msg1 end)
      (match truthy tm2 with Some _ => tm2 | None => tm1 end) r.
Proof.
  unfold update_fields.
  destruct (truthy msg2) as [m2|] eqn:Hm2, (truthy tm2) as [t2|] eqn:Ht2;
    rewrite ?Hm2, ?Ht2;
    destruct (truthy msg1), (truthy tm1); reflexivity.
Qed.

(** X19: two updates of a reminder, one after the other, are one update
    in which each field has the later value if that is not blank and
    the earlier one else; so the same update twice is that update
    once. *)
Theorem updateReminder_twice i msg1 tm1 msg2 tm2 db fs :
  let o1 := updateReminder i msg1 tm1 db fs in
  let o2 := updateReminder i msg2 tm2 (outcome_db o1) (outcome_fs o1) in
  outcome_db o2
  = outcome_db
      (updateReminder i
         (match truthy msg2 with Some _ => msg2 | None => msg1 end)
         (match truthy tm2 with Some _ => tm2 | None => tm1 end) db fs) /\
  outcome_db (updateReminder i msg1 tm1 (outcome_db o1) (outcome_fs o1))
  = outcome_db o1.
Proof.
  assert (Hdb : forall msg tm d f r, get i (reminders d) = Some r ->
    outcome_db (updateReminder i msg tm d f)
    = with_reminders d (set i (update_fields msg tm r) (reminders d))).
  { intros msg tm d f r Hget. unfold updateReminder.
    assert (Hhas : has i (reminders d) = true) by (apply has_get; eauto).
    rewrite Hhas, Hget. apply outcome_db_save. }
  assert (Habsent : forall msg tm d f, has i (reminders d) = false ->
    outcome_db (updateReminder i msg tm d f) = d).
  { intros msg tm d f Hhas. unfold updateReminder. by rewrite Hhas. }
  intros o1 o2. unfold o2, o1.
  destruct (get i (reminders db)) as [r|] eqn:Hget.
  - rewrite !(Hdb _ _ db _ r Hget).
    rewrite !(Hdb _ _ _ _ (update_fields msg1 tm1 r))
      by (cbn [reminders with_reminders]; apply get_set_eq).
    cbn [reminders with_reminders]. rewrite !set_set.
    rewrite !update_fields_twice. split; [done |].
    replace (match truthy msg1 with Some _ => msg1 | None => msg1 end)
      with msg1 by by destruct (truthy msg1).
    by replace (match truthy tm1 with Some _ => tm1 | None => tm1 end)
      with tm1 by by destruct (truthy tm1).
  - apply has_false_get in Hget. rewrite !Habsent; try done.
    all: by rewrite ?Habsent.
Qed.

(** X21: [generateUniqueId] returns the id of the first of the coming
    values of [Math.random()] whose id is free, having used up the
    values before it, whose ids are all taken, and that value itself;
    and it is still drawing exactly when the ids of all the values it
    was given are taken. *)
Theorem generateUniqueId_first_free rng db :
  (forall i rng',
     generateUniqueId rng db = Some (i, rng') <->
     exists used x,
       rng = used ++ x :: rng' /\ i = draw_id x /\ free_draw db x /\
       Forall (fun y => exists_ (draw_id y) db = true) used) /\
  (generateUniqueId rng db = None <->
   Forall (fun y => exists_ (draw_id y) db = true) rng).
Proof.
  unfold exists_, free_draw. split.
  - intros i rng'. split.
    + intros Hgen.
      destruct (generateUniqueId_spec _ _ _ _ Hgen)
        as (used & x & -> & -> & Hfree & Hused).
      by exists used, x.
    + intros (used & x & -> & -> & Hfree & Hused).
      induction Hused as [|y used Hy _ IH]; simpl.
      * by rewrite Hfree.
      * by rewrite Hy.
  - induction rng as [|x rng IH]; simpl.
    + split; [constructor | done].
    + destruct (has (draw_id x) (reminders db)) eqn:Hx.
      * rewrite IH. split; [by constructor | by intros [_ ?]%Forall_cons].
      * split; [done |]. intros [Hx' _]%Forall_cons. congruence.
Qed.
Lemma generateUniqueId_first_free_witness :
  generateUniqueId [one_half; S754_zero false] milk_db
  = Some ("10000000"%string, []).
Proof.
  apply (proj1 (generateUniqueId_first_free [one_half; S754_zero false]
                  milk_db)).
  exists [one_half], (S754_zero false).
  split_and!; [reflexivity | reflexivity | reflexivity |].
  constructor; [reflexivity | constructor].
Defined.
End MoreStoreFacts.

(** ** The interactive prompt *)

Section PromptFacts.
Import JsMap JsMapFacts.
Variable moment : string -> Moment.t.
Variable format_today : Z -> string.

(** One pass of the loop of [promptUser]: it ends the session, or it
    goes on with a later part of the lines, on the same store after a
    choice that reads and on the store that a method returned after a
    choice that writes. *)
Lemma promptUser_pass choice rest db fs rng :
  let s := promptUser moment format_today (choice :: rest) db fs rng in
  (text choice = "11"%string /\
   s = mkSession Exited (menu ++ [Log (VString "Goodbye!")]) db fs rng) \/
  (exists evs, s = mkSession Waiting evs db fs rng) \/
  (text choice = "1"%string /\
   exists evs, s = mkSession Spinning evs db fs rng) \/
  (mutating_choice (text choice) = true /\
   exists c db' fs' rng' evs,
     exec c rng db fs = Some (Raised db' fs', rng') /\
     s = mkSession Crashed evs db' fs' rng') \/
  (mutating_choice (text choice) = false /\ text choice <> "11"%string /\
   exists evs rest',
     rest' `suffix_of` rest /\ s = say evs (promptUser moment format_today rest' db fs rng)) \/
  (mutating_choice (text choice) = true /\
   exists c ret db' fs' rng' evs rest',
     exec c rng db fs = Some (Returned ret db' fs', rng') /\
     rest' `suffix_of` rest /\ s = say evs (promptUser moment format_today rest' db' fs' rng')).
Proof.
  assert (Hsuf1 : forall (a : Line) l, l `suffix_of` a :: l)
    by (intros a l; by exists [a]).
  assert (Hsuf2 : forall (a b : Line) l, l `suffix_of` a :: b :: l)
    by (intros a b l; by exists [a; b]).
  assert (Hsuf3 : forall (a b c : Line) l, l `suffix_of` a :: b :: c :: l)
    by (intros a b c l; by exists [a; b; c]).
  cbn zeta. cbn [promptUser]. unfold mutating_choice.
  destruct (String.eqb_spec (text choice) "1") as [H1 | H1].
  { rewrite H1. cbn [String.eqb orb Ascii.eqb Bool.eqb andb].
    destruct rest as [|message [|time rest2]];
      [right; left; by eexists | right; left; by eexists |].
    destruct (createReminder (text message) (text time) rng db fs)
      as [[[ret db' fs' | db' fs'] rng']|] eqn:Hc; cbn [log_outcome].
    - do 5 right. split; [done |].
      exists (Create (text message) (text time)), ret, db', fs', rng'.
      by eexists _, rest2.
    - do 3 right. left. split; [done |].
      exists (Create (text message) (text time)), db', fs', rng'.
      by eexists.
    - right. right. left. split; [done |]. by eexists. }
  destruct (String.eqb_spec (text choice) "2") as [H2 | H2].
  { rewrite H2. cbn [String.eqb orb Ascii.eqb Bool.eqb andb].
    destruct rest as [|line rest1]; [right; left; by eexists |].
    do 4 right. left. split_and!; [done | done |]. by eexists _, rest1. }
  destruct (String.eqb_spec (text choice) "3") as [H3 | H3].
  { rewrite H3. cbn [String.eqb orb Ascii.eqb Bool.eqb andb].
    destruct rest as [|updateId [|newMessage [|newTime rest3]]];
      [right; left; by eexists | right; left; by eexists
      | right; left; by eexists |].
    destruct (updateReminder (text updateId) (or_undefined (text newMessage))
                (or_undefined (text newTime)) db fs)
      as [ret db' fs' | db' fs'] eqn:Hc; cbn [log_outcome].
    - do 5 right. split; [done |].
      exists (Update (text updateId) (or_undefined (text newMessage))
                (or_undefined (text newTime))), ret, db', fs', rng.
      eexists _, rest3. cbn [exec]. by rewrite Hc.
    - do 3 right. left. split; [done |].
      exists (Update (text updateId) (or_undefined (text newMessage))
                (or_undefined (text newTime))), db', fs', rng.
      eexists. cbn [exec]. by rewrite Hc. }
  destruct (String.eqb_spec (text choice) "4") as [H4 | H4].
  { rewrite H4. cbn [String.eqb orb Ascii.eqb Bool.eqb andb].
    destruct rest as [|line rest1]; [right; left; by eexists |].
    destruct (removeReminder (text line) db fs)
      as [ret db' fs' | db' fs'] eqn:Hc; cbn [log_outcome].
    - do 5 right. split; [done |].
      exists (Remove (text line)), ret, db', fs', rng.
      eexists _, rest1. cbn [exec]. by rewrite Hc.
    - do 3 right. left. split; [done |].
      exists (Remove (text line)), db', fs', rng.
      eexists. cbn [exec]. by rewrite Hc. }
  destruct (String.eqb_spec (text choice) "5") as [H5 | H5].
  { rewrite H5. cbn [String.eqb orb Ascii.eqb Bool.eqb andb].
    do 4 right. left. split_and!; [done | done |]. by eexists _, rest. }
  destruct (String.eqb_spec (text choice) "6") as [H6 | H6].
  { rewrite H6. cbn [String.eqb orb Ascii.eqb Bool.eqb andb].
    destruct rest as [|line rest1]; [right; left; by eexists |].
    destruct (markReminderAsCompleted (text line) db fs)
      as [ret db' fs' | db' fs'] eqn:Hc; cbn [log_outcome].
    - do 5 right. split; [done |].
      exists (MarkCompleted (text line)), ret, db', fs', rng.
      eexists _, rest1. cbn [exec]. by rewrite Hc.
    - do 3 right. left. split; [done |].
      exists (MarkCompleted (text line)), db', fs', rng.
      eexists. cbn [exec]. by rewrite Hc. }
  destruct (String.eqb_spec (text choice) "7") as [H7 | H7].
  { rewrite H7. cbn [String.eqb orb Ascii.eqb Bool.eqb andb].
    destruct rest as [|line rest1]; [right; left; by eexists |].
    destruct (unmarkReminderAsCompleted (text line) db fs)
      as [ret db' fs' | db' fs'] eqn:Hc; cbn [log_outcome].
    - do 5 right. split; [done |].
      exists (UnmarkCompleted (text line)), ret, db', fs', rng.
      eexists _, rest1. cbn [exec]. by rewrite Hc.
    - do 3 right. left. split; [done |].
      exists (UnmarkCompleted (text line)), db', fs', rng.
      eexists. cbn [exec]. by rewrite Hc. }
  cbn [orb].
  destruct (String.eqb_spec (text choice) "8") as [H8 | H8].
  { do 4 right. left. split_and!; [done | by rewrite H8 |].
    by eexists _, rest. }
  destruct (String.eqb_spec (text choice) "9") as [H9 | H9].
  { do 4 right. left. split_and!; [done | by rewrite H9 |].
    by eexists _, rest. }
  destruct (String.eqb_spec (text choice) "10") as [H10 | H10].
  { do 4 right. left. split_and!; [done | by rewrite H10 |].
    by eexists _, rest. }
  destruct (String.eqb_spec (text choice) "11") as [H11 | H11].
  { left. done. }
  do 4 right. left. split_and!; [done | done |]. by eexists _, rest.
Qed.
(** What holds of the store before a session and is kept by every
    method that returns holds after the session, unless an exception
    ended it; then what every throwing method leaves holds. *)
Lemma promptUser_invariant
  (I J : ReminderDatabase -> FileSystem -> list spec_float -> Prop) :
  (forall c rng db fs ret db' fs' rng',
     I db fs rng -> exec c rng db fs = Some (Returned ret db' fs', rng') ->
     I db' fs' rng') ->
  (forall c rng db fs db' fs' rng',
     I db fs rng -> exec c rng db fs = Some (Raised db' fs', rng') ->
     J db' fs' rng') ->
  forall input db fs rng,
    I db fs rng ->
    let s := promptUser moment format_today input db fs rng in
    (ending s = Crashed -> J (final_db s) (final_fs s) (final_rng s)) /\
    (ending s <> Crashed -> I (final_db s) (final_fs s) (final_rng s)).
Proof.
  intros HI HJ input.
  remember (length input) as n eqn:Hn. revert input Hn.
  induction (lt_wf n) as [n _ IH]. intros input Hn db fs rng Hinv.
  destruct input as [|choice rest]; [simpl; by split |].
  destruct (promptUser_pass choice rest db fs rng)
    as [(_ & ->) | [(evs & ->) | [(_ & evs & ->)
       | [(_ & c & db' & fs' & rng' & evs & Hex & ->)
       | [(_ & _ & evs & rest' & Hsuf & ->)
       | (_ & c & ret & db' & fs' & rng' & evs & rest' & Hex & Hsuf & ->)]]]]];
    cbn zeta; cbn [ending final_db final_fs final_rng say];
    try (split; [discriminate | done]).
  - split; [intros _; by eapply HJ | done].
  - apply suffix_length in Hsuf.
    apply (IH (length rest')); [simpl in Hn; lia | done | done].
  - apply suffix_length in Hsuf.
    apply (IH (length rest')); [simpl in Hn; lia | done |].
    by eapply HI.
Qed.

Lemma exec_denied c rng db fs o rng' :
  exec c rng db fs = Some (o, rng') -> denied (outcome_fs o) = denied fs.
Proof.
  intros Hex.
  destruct (exec_shape _ _ _ _ _ _ Hex)
    as [(ret & -> & _) | (msg & db' & -> & _)]; [done |].
  unfold save_and_return, saveToFile, writeJsonSync.
  by destruct (bool_decide (filename db' ∈ denied fs)).
Qed.

Lemma exec_raised c rng db fs db' fs' rng' :
  exec c rng db fs = Some (Raised db' fs', rng') ->
  filename db ∈ denied fs.
Proof.
  intros Hex.
  destruct (exec_shape _ _ _ _ _ _ Hex)
    as [(ret & [=] & _) | (msg & db1 & Hret & Hfile)].
  destruct (decide (filename db1 ∈ denied fs)) as [Hd | Hd];
    [by rewrite <- Hfile |].
  destruct (save_and_return_allowed msg db1 fs Hd) as (fs1 & _ & Hok).
  congruence.
Qed.

(** X11: the prompt changes the store through its methods only.  A
    session that no exception ended leaves a store and a disk that a
    run of returning methods reaches from those it began with; an
    exception that ended it came out of a method called on such a
    store. *)
Theorem session_runs_methods input db fs rng :
  let s := promptUser moment format_today input db fs rng in
  (ending s <> Crashed -> reachable db fs (final_db s) (final_fs s)) /\
  (ending s = Crashed ->
     exists db1 fs1 c rng1,
       reachable db fs db1 fs1 /\
       exec c rng1 db1 fs1
         = Some (Raised (final_db s) (final_fs s), final_rng s)).
Proof.
  intros s.
  destruct (promptUser_invariant
              (fun d f _ => reachable db fs d f)
              (fun d' f' r' => exists db1 fs1 c rng1,
                 reachable db fs db1 fs1 /\
                 exec c rng1 db1 fs1 = Some (Raised d' f', r')))
    with (input := input) (db := db) (fs := fs) (rng := rng) as [Hc Hn].
  - intros c r d f ret d' f' r' Hreach Hex. by eapply reach_step.
  - intros c r d f d' f' r' Hreach Hex. by exists d, f, c, r.
  - apply reach_start.
  - split; [exact Hn | exact Hc].
Qed.

(** X12: a session keeps the keys of the store distinct and equal to
    the ids of their reminders, however it ends. *)
Theorem session_keeps_well_formed input db fs rng :
  well_formed db ->
  well_formed (final_db (promptUser moment format_today input db fs rng)).
Proof.
  intros Hwf.
  destruct (promptUser_invariant
              (fun d _ _ => well_formed d) (fun d _ _ => well_formed d))
    with (input := input) (db := db) (fs := fs) (rng := rng) as [Hc Hn].
  - intros c r d f ret d' f' r' Hd Hex.
    exact (exec_well_formed _ _ _ _ _ _ Hd Hex).
  - intros c r d f d' f' r' Hd Hex.
    exact (exec_well_formed _ _ _ _ _ _ Hd Hex).
  - exact Hwf.
  - destruct (ending (promptUser moment format_today input db fs rng)) eqn:He;
      first [apply Hn; congruence | apply Hc; congruence].
Qed.

(** X13: the program starts again where it stopped.  When a run of
    [main] was not ended by an exception, the store that the next run
    constructs from the file is the store that this run had in memory
    at its end. *)
Theorem main_starts_where_it_stopped fs rng input s :
  main moment format_today fs rng input = Some s ->
  ending s <> Crashed ->
  constructor default_filename (final_fs s) = Some (final_db s) /\
  forall rng2 input2,
    main moment format_today (final_fs s) rng2 input2
    = Some (promptUser moment format_today input2 (final_db s) (final_fs s)
              rng2).
Proof.
  unfold main at 1.
  destruct (constructor default_filename fs) as [db|] eqn:Hstart; [|done].
  intros [= <-] Hend.
  destruct (promptUser_invariant
              (fun d f _ => NoDup (keys (reminders d)) /\
                 filename d = default_filename /\
                 constructor default_filename f = Some d)
              (fun _ _ _ => True))
    with (input := input) (db := db) (fs := fs) (rng := rng) as [_ Hn].
  - intros c r d f ret d' f' r' (Hnd & Hfile & Hload) Hex.
    pose proof (exec_NoDup _ _ _ _ _ _ Hnd Hex) as Hnd'.
    pose proof (exec_filename _ _ _ _ _ _ Hex) as Hfile'.
    simpl in Hnd', Hfile'. rewrite Hfile in Hfile'.
    split_and!; try done.
    destruct (exec_returned _ _ _ _ _ _ _ _ Hex) as [[-> ->] | Hsave];
      [done |].
    rewrite <- Hfile'. by eapply constructor_after_save.
  - done.
  - destruct (constructor_NoDup _ _ _ Hstart). done.
  - destruct (Hn Hend) as (_ & _ & Hload). split; [exact Hload |].
    intros rng2 input2. unfold main. by rewrite Hload.
Qed.

(** X14: when the file of the store may be written, no session is
    ended by an exception. *)
Theorem session_never_crashes input db fs rng :
  filename db ∉ denied fs ->
  ending (promptUser moment format_today input db fs rng) <> Crashed.
Proof.
  intros Hw Hcrash.
  destruct (promptUser_invariant
              (fun d f _ => filename d ∉ denied f) (fun _ _ _ => False))
    with (input := input) (db := db) (fs := fs) (rng := rng) as [Hc _].
  - intros c r d f ret d' f' r' Hd Hex.
    pose proof (exec_filename _ _ _ _ _ _ Hex) as Hfile.
    pose proof (exec_denied _ _ _ _ _ _ Hex) as Hden.
    simpl in Hfile, Hden. by rewrite Hfile, Hden.
  - intros c r d f d' f' r' Hd Hex. by apply exec_raised in Hex.
  - exact Hw.
  - by apply Hc.
Qed.

(** X15: a session in which none of the lines 1, 3, 4, 6 and 7 is
    entered changes nothing: the store, the disk and the random values
    are at the end what they were, and the session is ended neither by
    an exception nor in [generateUniqueId]. *)
Theorem session_without_writing_choices input db fs rng :
  Forall (fun line => mutating_choice (text line) = false) input ->
  let s := promptUser moment format_today input db fs rng in
  final_db s = db /\ final_fs s = fs /\ final_rng s = rng /\
  ending s <> Crashed /\ ending s <> Spinning.
Proof.
  remember (length input) as n eqn:Hn. revert input Hn.
  induction (lt_wf n) as [n _ IH]. intros input Hn Hread.
  destruct input as [|choice rest]; [simpl; by split_and! |].
  apply Forall_cons in Hread as [Hchoice Hrest].
  destruct (promptUser_pass choice rest db fs rng)
    as [(_ & ->) | [(evs & ->) | [(H1 & evs & ->)
       | [(Hm & _)
       | [(_ & _ & evs & rest' & Hsuf & ->)
       | (Hm & _)]]]]];
    cbn zeta; cbn [ending final_db final_fs final_rng say];
    try (by split_and!); try congruence.
  - by rewrite H1 in Hchoice.
  - pose proof (suffix_length _ _ Hsuf) as Hlen.
    apply (IH (length rest')); [simpl in Hn; lia | done |].
    destruct Hsuf as [k ->]. by apply Forall_app in Hrest as [_ ?].
Qed.

(** X16: the loop returns through the choice 11 only: a session that
    has ended by leaving the loop has the line 11 among its lines and
    "Goodbye!" as the last thing it printed. *)
Theorem session_exits_by_choice_11 input db fs rng :
  let s := promptUser moment format_today input db fs rng in
  ending s = Exited ->
  (exists line, line ∈ input /\ text line = "11"%string) /\
  last (events s) = Some (Log (VString "Goodbye!")).
Proof.
  remember (length input) as n eqn:Hn. revert input Hn db fs rng.
  induction (lt_wf n) as [n _ IH]. intros input Hn db fs rng.
  destruct input as [|choice rest]; [simpl; discriminate |].
  assert (Hgo : forall evs rest' db' fs' rng',
    rest' `suffix_of` rest ->
    let s := say evs (promptUser moment format_today rest' db' fs' rng') in
    ending s = Exited ->
    (exists line, line ∈ choice :: rest /\ text line = "11"%string) /\
    last (events s) = Some (Log (VString "Goodbye!"))).
  { intros evs rest' db' fs' rng' Hsuf s Hend.
    pose proof (suffix_length _ _ Hsuf) as Hlen.
    destruct (IH (length rest') ltac:(simpl in Hn; lia) rest' eq_refl
                db' fs' rng' Hend) as [(line & Hin & Hline) Hlast].
    split.
    - exists line. split; [|done]. right. destruct Hsuf as [k ->].
      apply elem_of_app. by right.
    - unfold s. cbn [events say]. rewrite last_app. by rewrite Hlast. }
  destruct (promptUser_pass choice rest db fs rng)
    as [(H11 & ->) | [(evs & ->) | [(_ & evs & ->)
       | [(_ & c & db' & fs' & rng' & evs & _ & ->)
       | [(_ & _ & evs & rest' & Hsuf & ->)
       | (_ & c & ret & db' & fs' & rng' & evs & rest' & _ & Hsuf & ->)]]]]];
    cbn zeta; try (cbn [ending]; discriminate).
  - intros _. split; [exists choice; split; [left | done] | reflexivity].
  - by apply Hgo.
  - by apply Hgo.
Qed.
(** X20: the choice 3 of the menu with the id of a reminder and two
    more lines gives the reminder the lines that are not blank as its
    message and its time and keeps the field of a blank line, with the
    id, the flag and the other reminders as they were; and when the
    file may be written it prints "Reminder <id> updated." and shows
    the menu again. *)
Theorem menu_update_keeps_blank_fields choice i m t db fs rng r :
  text choice = "3"%string ->
  getReminder (text i) db = Some r ->
  let s := promptUser moment format_today [choice; i; m; t] db fs rng in
  getReminder (text i) (final_db s)
    = Some {| id := id r;
              message := match text m with
                         | EmptyString => message r
                         | _ => text m
                         end;
              time := match text t with
                      | EmptyString => time r
                      | _ => text t
                      end;
              completed := completed r |} /\
  (forall k, k <> text i ->
     getReminder k (final_db s) = getReminder k db) /\
  (filename db ∉ denied fs ->
     ending s = Waiting /\
     events s
     = menu
       ++ [ask_id;
           Question "Enter new message (leave blank to keep the same): ";
           Question
             "Enter new time (YYYY-MM-DD HH:mm) (leave blank to keep the same): ";
           Log (VString ("Reminder " +:+ text i +:+ " updated."))]
       ++ menu).
Proof.
  intros H3 Hget s. unfold getReminder in Hget.
  assert (Hhas : has (text i) (reminders db) = true)
    by (apply has_get; eauto).
  set (r' := update_fields (or_undefined (text m)) (or_undefined (text t)) r).
  set (db' := with_reminders db (set (text i) r' (reminders db))).
  assert (Hup : updateReminder (text i) (or_undefined (text m))
                  (or_undefined (text t)) db fs
                = save_and_return ("Reminder " +:+ text i +:+ " updated.")
                    db' fs).
  { unfold updateReminder. by rewrite Hhas, Hget. }
  assert (Hr' : r' = {| id := id r;
                        message := match text m with
                                   | EmptyString => message r
                                   | _ => text m
                                   end;
                        time := match text t with
                                | EmptyString => time r
                                | _ => text t
                                end;
                        completed := completed r |}).
  { unfold r', update_fields.
    destruct r, (text m), (text t); reflexivity. }
  assert (Hfinal : final_db s = db').
  { unfold s. cbn [promptUser]. rewrite H3. cbn [String.eqb Ascii.eqb Bool.eqb].
    rewrite Hup. unfold save_and_return.
    by destruct (saveToFile db' fs). }
  rewrite Hfinal. unfold getReminder, db'. cbn [reminders with_reminders].
  split_and!.
  - rewrite get_set_eq. by rewrite Hr'.
  - intros k Hk. by apply get_set_ne.
  - intros Hw.
    destruct (save_and_return_allowed
                ("Reminder " +:+ text i +:+ " updated.") db' fs Hw)
      as (fs' & _ & Hret).
    unfold s. cbn [promptUser]. rewrite H3.
    cbn [String.eqb Ascii.eqb Bool.eqb]. rewrite Hup, Hret.
    cbn [log_outcome say ending events]. split; [done |].
    by rewrite <- !app_assoc.
Qed.
End PromptFacts.

Section PromptExamples.
Import Moment.

Lemma session_keeps_well_formed_witness :
  well_formed
    (final_db (promptUser of_documented format_YYYY_MM_DD milk_session
                 new_db no_files [one_half])).
Proof.
  apply (session_keeps_well_formed of_documented format_YYYY_MM_DD
           milk_session new_db no_files [one_half]).
  split; [apply NoDup_nil_2 | constructor].
Defined.

Lemma main_starts_where_it_stopped_witness :
  let s := promptUser of_documented format_YYYY_MM_DD milk_session new_db
             no_files [one_half] in
  constructor default_filename (final_fs s) = Some (final_db s) /\
  forall rng2 input2,
    main of_documented format_YYYY_MM_DD (final_fs s) rng2 input2
    = Some (promptUser of_documented format_YYYY_MM_DD input2 (final_db s)
              (final_fs s) rng2).
Proof.
  apply (main_starts_where_it_stopped of_documented format_YYYY_MM_DD
           no_files [one_half] milk_session).
  - reflexivity.
  - intros H. vm_compute in H. discriminate.
Defined.

Lemma session_never_crashes_witness :
  ending (promptUser of_documented format_YYYY_MM_DD milk_session new_db
            no_files [one_half]) <> Crashed.
Proof.
  apply (session_never_crashes of_documented format_YYYY_MM_DD milk_session
           new_db no_files [one_half]).
  apply not_elem_of_empty.
Defined.

Lemma session_without_writing_choices_witness :
  let s := promptUser of_documented format_YYYY_MM_DD looking_session
             milk_db milk_fs [one_half] in
  final_db s = milk_db /\ final_fs s = milk_fs /\ final_rng s = [one_half] /\
  ending s <> Crashed /\ ending s <> Spinning.
Proof.
  apply (session_without_writing_choices of_documented format_YYYY_MM_DD
           looking_session milk_db milk_fs [one_half]).
  repeat constructor.
Defined.

Lemma session_exits_by_choice_11_witness :
  let s := promptUser of_documented format_YYYY_MM_DD milk_session new_db
             no_files [one_half] in
  (exists line, line ∈ milk_session /\ text line = "11"%string) /\
  last (events s) = Some (Log (VString "Goodbye!")).
Proof.
  apply (session_exits_by_choice_11 of_documented format_YYYY_MM_DD
           milk_session new_db no_files [one_half]).
  vm_compute. reflexivity.
Defined.
Lemma menu_update_keeps_blank_fields_witness :
  let s := promptUser of_documented format_YYYY_MM_DD
             [at_noon "3"; at_noon "55000000"; at_noon EmptyString;
              at_noon "2030-01-01 00:00"] milk_db milk_fs [] in
  getReminder "55000000" (final_db s)
    = Some {| id := "55000000"; message := "buy milk";
              time := "2030-01-01 00:00"; completed := false |} /\
  (forall k, k <> "55000000"%string ->
     getReminder k (final_db s) = getReminder k milk_db).
Proof.
  destruct (menu_update_keeps_blank_fields of_documented format_YYYY_MM_DD
              (at_noon "3") (at_noon "55000000") (at_noon EmptyString)
              (at_noon "2030-01-01 00:00") milk_db milk_fs [] milk
              eq_refl eq_refl) as (Hget & Hothers & _).
  exact (conj Hget Hothers).
Defined.
End PromptExamples.

(** ** More about the due reminders *)

Section MoreDueFacts.
Import Moment JsMap JsMapFacts.

(** X17: a reminder that is due stays due: when it is in the list at
    one instant, it is in the list at every instant of that day or of a
    later day (the date that [moment] prints for either instant reading
    back as a moment of its day). *)
Theorem due_stays_due (moment : string -> Moment.t)
  (format_today : Z -> string) now later db r :
  (exists t, moment (format_today now) = Valid t /\ day t = day now) ->
  (exists t, moment (format_today later) = Valid t /\ day t = day later) ->
  day now <= day later ->
  In r (getAllRemindersDueByToday moment format_today now db) ->
  In r (getAllRemindersDueByToday moment format_today later db).
Proof.
  intros (t0 & Ht0 & Hd0) (t1 & Ht1 & Hd1) Hle.
  unfold getAllRemindersDueByToday. cbn zeta.
  intros [Hin Hdue]%filter_In. apply filter_In. split; [done |].
  apply isSameOrBefore_day_spec in Hdue as (x & y & Hx & Hy & Hxy).
  apply isSameOrBefore_day_spec.
  rewrite Ht0 in Hy. injection Hy as <-.
  exists x, t1. split_and!; try done. lia.
Qed.

Lemma due_stays_due_witness :
  In yesterday_reminder
    (getAllRemindersDueByToday of_documented format_YYYY_MM_DD
       (noon_2024_01_02 + 3 * ms_per_day) two_days_db).
Proof.
  apply (due_stays_due of_documented format_YYYY_MM_DD noon_2024_01_02
           (noon_2024_01_02 + 3 * ms_per_day) two_days_db yesterday_reminder).
  - exists 1704153600000. split; vm_compute; reflexivity.
  - exists 1704412800000. split; vm_compute; reflexivity.
  - vm_compute. discriminate.
  - vm_compute. left. reflexivity.
Defined.

(** X18: the list of the due reminders does not look at the flag: a
    due reminder that is marked or unmarked is still in the list, with
    the flag it was given. *)
Theorem due_whatever_the_flag (moment : string -> Moment.t)
  (format_today : Z -> string) now b i db fs r :
  getReminder i db = Some r ->
  In r (getAllRemindersDueByToday moment format_today now db) ->
  In {| id := id r; message := message r; time := time r; completed := b |}
    (getAllRemindersDueByToday moment format_today now
       (outcome_db (assign_completed b i db fs))).
Proof.
  intros Hget. unfold getReminder in Hget.
  assert (Hhas : has i (reminders db) = true) by (apply has_get; eauto).
  unfold getAllRemindersDueByToday. cbn zeta.
  intros [_ Hdue]%filter_In. apply filter_In. split; [|exact Hdue].
  rewrite assign_completed_db by done. cbn [reminders with_reminders].
  apply (get_In_values i). rewrite get_modify_eq. by rewrite Hget.
Qed.

Lemma due_whatever_the_flag_witness :
  In {| id := id yesterday_reminder; message := message yesterday_reminder;
        time := time yesterday_reminder; completed := true |}
    (getAllRemindersDueByToday of_documented format_YYYY_MM_DD
       noon_2024_01_02
       (outcome_db (assign_completed true "10000001" two_days_db no_files))).
Proof.
  apply (due_whatever_the_flag of_documented format_YYYY_MM_DD
           noon_2024_01_02 true "10000001" two_days_db no_files
           yesterday_reminder).
  - reflexivity.
  - vm_compute. left. reflexivity.
Defined.
End MoreDueFacts.
